(** * plotter.py: log parsing and chart rendering

    A shallow embedding of [src/plotter.py].  The module has two functions:
    [parse_log_file], which scans a training log for lines of the shape

      step:<int>/<int> val_loss:<float> train_time:<int>ms step_avg:<float>ms

    and [create_plots], which draws two charts from the parsed series and
    saves them under an output directory.

    Python text is modelled as [string]; a character is an [ascii], i.e. a
    code point below 256, a range in which the regular expression class
    [\d] is exactly the ten characters 0-9.  Python [int] is [Z]; Python
    [float] (and numpy's float64) is IEEE binary64, taken from the standard
    library's [spec_float] with precision 53 and maximal exponent 1024. *)

From Stdlib Require Import ZArith Ascii String List Bool Lia.
From Stdlib Require Import Floats.SpecFloat.
From stdpp Require Import base option list strings gmap.

Local Open Scope Z_scope.

(** ** Exceptions *)

(** The exceptions the modelled calls can raise. *)
Inductive exn : Type :=
| ValueError
| OverflowError
| FileNotFoundError
| FileExistsError
| IsADirectoryError
| NotADirectoryError
| UnicodeDecodeError.

(** The outcome of a call that computes a value without changing the world. *)
Inductive result (A : Type) : Type :=
| Ok (a : A)
| Raise (e : exn).
Arguments Ok {A} a.
Arguments Raise {A} e.

Definition bind {A B : Type} (r : result A) (f : A -> result B) : result B :=
  match r with
  | Ok a => f a
  | Raise e => Raise e
  end.

Notation "'let*' x ':=' r 'in' k" := (bind r (fun x => k))
  (at level 10, x name, r at level 100, k at level 200).

Definition is_ok {A : Type} (r : result A) : bool :=
  match r with Ok _ => true | Raise _ => false end.

(** ** Characters and strings *)

Module Str.

Fixpoint all (p : ascii -> bool) (s : string) : bool :=
  match s with
  | EmptyString => true
  | String c s' => p c && all p s'
  end.

Fixpoint count (p : ascii -> bool) (s : string) : nat :=
  match s with
  | EmptyString => O
  | String c s' => (if p c then 1 else 0)%nat + count p s'
  end.

Definition nonempty (s : string) : bool :=
  match s with EmptyString => false | String _ _ => true end.

(** The first character of [s] is not in the class [p] (or [s] is empty). *)
Definition stops (p : ascii -> bool) (s : string) : bool :=
  match s with EmptyString => true | String c _ => negb (p c) end.

(** The longest prefix of [s] in the class [p], and the rest. *)
Fixpoint span (p : ascii -> bool) (s : string) : string * string :=
  match s with
  | EmptyString => (EmptyString, EmptyString)
  | String c s' =>
      if p c then let '(w, r) := span p s' in (String c w, r)
      else (EmptyString, s)
  end.

(** [c * n]: the character [c], [n] times. *)
Fixpoint repeat (c : ascii) (n : nat) : string :=
  match n with
  | O => EmptyString
  | S n' => String c (repeat c n')
  end.

(** [s.endswith(suf)] *)
Fixpoint endswith (suf s : string) : bool :=
  match s with
  | EmptyString => String.eqb suf EmptyString
  | String _ s' => String.eqb suf s || endswith suf s'
  end.

(** [s.startswith(pre)] *)
Fixpoint startswith (pre s : string) : bool :=
  match pre, s with
  | EmptyString, _ => true
  | String a pre', String b s' => Ascii.eqb a b && startswith pre' s'
  | String _ _, EmptyString => false
  end.

End Str.

(** ** The regular expression *)

(** [\d]: a decimal digit. *)
Definition is_digit (c : ascii) : bool :=
  match c with
  | "0" | "1" | "2" | "3" | "4" | "5" | "6" | "7" | "8" | "9" => true
  | _ => false
  end%char.

(** [[\d.]]: a decimal digit or a dot. *)
Definition is_digit_or_dot (c : ascii) : bool :=
  is_digit c || Ascii.eqb c "."%char.

(** The character classes the pattern uses. *)
Inductive charset : Type :=
| Digit        (* \d *)
| DigitOrDot.  (* [\d.] *)

Definition in_charset (cs : charset) : ascii -> bool :=
  match cs with
  | Digit => is_digit
  | DigitOrDot => is_digit_or_dot
  end.

(** The pieces of the pattern: a literal character, or a greedy one-or-more
    repetition of a character class, capturing (in parentheses) or not. *)
Inductive token : Type :=
| Lit (c : ascii)
| Rep1 (capture : bool) (cs : charset).

Fixpoint lit (s : string) : list token :=
  match s with
  | EmptyString => []
  | String c s' => Lit c :: lit s'
  end.

(** r'step:(\d+)/\d+ val_loss:([\d.]+) train_time:(\d+)ms step_avg:([\d.]+)ms' *)
Definition log_pattern : list token :=
  lit "step:" ++ [Rep1 true Digit] ++ lit "/" ++ [Rep1 false Digit] ++
  lit " val_loss:" ++ [Rep1 true DigitOrDot] ++
  lit " train_time:" ++ [Rep1 true Digit] ++
  lit "ms step_avg:" ++ [Rep1 true DigitOrDot] ++ lit "ms".

(** Greedy one-or-more with backtracking: consume characters of the class
    as long as possible, then hand the consumed word and the rest to the
    continuation [k]; when [k] fails give one character back and retry,
    down to a single character. *)
Fixpoint greedy1 {A : Type} (p : ascii -> bool)
    (k : string -> string -> option A) (s : string) : option A :=
  match s with
  | EmptyString => None
  | String c s' =>
      if p c then
        match greedy1 p (fun w r => k (String c w) r) s' with
        | Some x => Some x
        | None => k (String c EmptyString) s'
        end
      else None
  end.

(** Match the tokens at the start of [s]; [gs] are the groups captured so
    far, in order.  What follows the last token is not inspected. *)
Fixpoint match_tokens (ts : list token) (s : string) (gs : list string)
    : option (list string) :=
  match ts with
  | [] => Some gs
  | Lit c :: ts' =>
      match s with
      | String c' s' =>
          if Ascii.eqb c c' then match_tokens ts' s' gs else None
      | EmptyString => None
      end
  | Rep1 cap cs :: ts' =>
      greedy1 (in_charset cs)
        (fun w r => match_tokens ts' r (if cap then gs ++ [w] else gs)) s
  end.

(** [re.match(pattern, line)]: the match is anchored at the start of the
    line only.  The match object is represented by its list of groups. *)
Definition re_match (pattern : list token) (line : string)
    : option (list string) :=
  match_tokens pattern line [].

(** [match.group(n)] for [n >= 1]. *)
Definition group (m : list string) (n : nat) : string :=
  nth (n - 1) m EmptyString.

Definition matches (line : string) : bool :=
  match re_match log_pattern line with Some _ => true | None => false end.

(** ** Numbers *)

(** Python's [float]: IEEE 754 binary64. *)
Definition float : Type := spec_float.

Module Float.

Definition prec : Z := 53.
Definition emax : Z := 1024.

Definition mul : float -> float -> float := SFmul prec emax.
Definition div : float -> float -> float := SFdiv prec emax.

(** The float nearest to the integer [z] (ties to even), infinite when
    [z] is out of range. *)
Definition of_Z (z : Z) : float := binary_normalize prec emax z 0 false.

(** The float nearest to [m / 10^k] for [m >= 0] (ties to even). *)
Definition of_decimal (m : Z) (k : nat) : float :=
  match m with
  | Zpos _ =>
      let '(q, e, l) := SFdiv_core_binary prec emax m 0 (10 ^ Z.of_nat k) 0 in
      binary_round_aux prec emax false q e l
  | _ => S754_zero false
  end.

Definition is_infinite (x : float) : bool :=
  match x with S754_infinity _ => true | _ => false end.

End Float.

Definition digit_value (c : ascii) : Z := Z.of_N (N_of_ascii c) - 48.

(** The number a string of decimal digits denotes, after the digits [acc]. *)
Fixpoint digits_value (acc : Z) (s : string) : Z :=
  match s with
  | EmptyString => acc
  | String c s' => digits_value (10 * acc + digit_value c) s'
  end.

(** [int(s)] for a string [s] over digits and dots, which is all the
    pattern's groups can hold: a non-empty string of digits is read in base
    ten, anything else is a ValueError.  [max_str_digits] is the
    interpreter's limit on the length of a decimal string that [int] will
    convert ([sys.get_int_max_str_digits()], 4300 unless configured; 0 on
    interpreters without the limit); it applies to strings of more than 640
    digits, and a longer string of digits is a ValueError too. *)
Definition py_int (max_str_digits : nat) (s : string) : result Z :=
  if Str.nonempty s && Str.all is_digit s then
    if (640 <? String.length s)%nat && (0 <? max_str_digits)%nat &&
       (max_str_digits <? String.length s)%nat
    then Raise ValueError
    else Ok (digits_value 0 s)
  else Raise ValueError.

(** Split [s] at its first dot: the text before it, and the text after it
    when there is a dot. *)
Fixpoint split_dot (s : string) : string * option string :=
  match s with
  | EmptyString => (EmptyString, None)
  | String c s' =>
      if Ascii.eqb c "."%char then (EmptyString, Some s')
      else let '(a, b) := split_dot s' in (String c a, b)
  end.

(** [float(s)] for a string [s] over digits and dots: digits with at most
    one dot among them and at least one digit denote the correctly rounded
    decimal; a string that is too large in magnitude gives infinity;
    anything else is a ValueError. *)
Definition py_float (s : string) : result float :=
  let '(int_part, after) := split_dot s in
  let frac_part := default EmptyString after in
  if Str.all is_digit int_part && Str.all is_digit frac_part &&
     Str.nonempty (int_part +:+ frac_part)
  then Ok (Float.of_decimal (digits_value 0 (int_part +:+ frac_part))
             (String.length frac_part))
  else Raise ValueError.

(** The conversion of an [int] operand in mixed [float * int] arithmetic:
    an integer that rounds beyond the largest float is an OverflowError. *)
Definition int_as_float (z : Z) : result float :=
  let x := Float.of_Z z in
  if Float.is_infinite x then Raise OverflowError else Ok x.

(** [x * n] for a float [x] and an int [n]. *)
Definition float_mul_int (x : float) (n : Z) : result float :=
  let* y := int_as_float n in Ok (Float.mul x y).

(** A float literal of the program text, such as [3.28]. *)
Definition float_literal (s : string) : float :=
  match py_float s with Ok x => x | Raise _ => S754_nan end.

(** ** parse_log_file *)

(** The text of a file as the lines a text-mode file object iterates over:
    each line keeps its terminator, and the terminators CR LF and CR are
    read as LF (universal newlines). *)
Fixpoint splitlines (s : string) : list string :=
  match s with
  | EmptyString => []
  | String c s' =>
      if Ascii.eqb c "010"%char then String "010"%char EmptyString :: splitlines s'
      else if Ascii.eqb c "013"%char then
        match s' with
        | String "010"%char s'' => String "010"%char EmptyString :: splitlines s''
        | _ => String "010"%char EmptyString :: splitlines s'
        end
      else
        match splitlines s' with
        | [] => [String c EmptyString]
        | l :: ls => String c l :: ls
        end
  end.

(** The three parallel lists [steps], [losses], [times]. *)
Definition series : Type := list Z * list float * list float.

Section Parser.

(** The interpreter's [int] string-length limit, see [py_int]. *)
Variable max_str_digits : nat.

(** One iteration of the loop over the lines of the file. *)
Definition parse_line (line : string) (acc : series) : result series :=
  let '(steps, losses, times) := acc in
  match re_match log_pattern line with
  | Some m =>
      let* step := py_int max_str_digits (group m 1) in
      let* loss := py_float (group m 2) in
      let* avg_time := py_float (group m 4) in
      let steps := steps ++ [step] in
      let losses := losses ++ [loss] in
      let* t := float_mul_int avg_time step in
      Ok (steps, losses, times ++ [t])
  | None => Ok acc
  end.

Fixpoint parse_lines (lines : list string) (acc : series) : result series :=
  match lines with
  | [] => Ok acc
  | line :: rest => let* acc' := parse_line line acc in parse_lines rest acc'
  end.

End Parser.

(** ** The world: file system and pyplot *)

(** The data of the x axis: a list of ints or a float64 array. *)
Inductive xdata : Type :=
| Ints (l : list Z)
| Floats (l : list float).

(** The pyplot calls that draw on the current figure, with the arguments
    the program passes. *)
Inductive call : Type :=
| Plot (x : xdata) (y : list float) (label : string) (linewidth : Z)
| Axhline (y : float) (color linestyle : string) (linewidth : option Z)
    (label : string)
| Xlabel (s : string) (fontsize : Z)
| Ylabel (s : string) (fontsize : Z)
| Title (s : string) (fontsize pad : Z)
| Grid (visible : bool) (linestyle : string) (alpha : float)
| Legend (frameon fancybox shadow : bool)
| TightLayout.

(** A figure: its size when one was given, and the calls made on it, in
    order. *)
Record figure : Type := Figure {
  figsize : option (Z * Z);
  calls : list call
}.

(** What [savefig] writes. *)
Record image : Type := Image {
  img_figure : figure;
  img_dpi : Z;
  img_bbox_inches : string
}.

Inductive node : Type :=
| Dir
| TextFile (text : string)
| ImageFile (img : image).

(** The file system maps a path, as it is spelled, to what is there. *)
Abbreviation filesystem := (gmap string node).

(** The world: the file system and pyplot's open figures, the current
    figure first. *)
Record world : Type := World {
  fs : filesystem;
  figures : list figure
}.

(** A call that may change the world and may raise. *)
Definition M (A : Type) : Type := world -> result A * world.

Definition ret {A : Type} (a : A) : M A := fun w => (Ok a, w).

Definition raise {A : Type} (e : exn) : M A := fun w => (Raise e, w).

Definition mbind {A B : Type} (m : M A) (f : A -> M B) : M B :=
  fun w =>
    match m w with
    | (Ok a, w') => f a w'
    | (Raise e, w') => (Raise e, w')
    end.

Notation "'let!' x ':=' m 'in' k" := (mbind m (fun x => k))
  (at level 10, x pattern, m at level 100, k at level 200).
Notation "m ';;' k" := (mbind m (fun _ => k))
  (at level 100, k at level 200, right associativity).

(** [for x in l: body(x)] *)
Fixpoint for_each {A : Type} (l : list A) (body : A -> M unit) : M unit :=
  match l with
  | [] => ret tt
  | x :: l' => body x ;; for_each l' body
  end.

(** *** os *)

(** [os.path.join(a, b)] on a POSIX system. *)
Definition os_path_join (a b : string) : string :=
  if Str.startswith "/" b then b
  else if negb (Str.nonempty a) || Str.endswith "/" a then a +:+ b
  else a +:+ "/" +:+ b.

(** The directories above [name]: every proper prefix of [name] that is
    followed by a slash and is itself neither empty nor ended by one. *)
Fixpoint ancestors_go (pre rest : string) : list string :=
  match rest with
  | EmptyString => []
  | String c rest' =>
      let tail := ancestors_go (pre +:+ String c EmptyString) rest' in
      if Ascii.eqb c "/"%char && Str.nonempty pre && negb (Str.endswith "/" pre)
      then pre :: tail else tail
  end.
Definition ancestors (name : string) : list string :=
  ancestors_go EmptyString name.

(** [mkdir] of one directory whose parent exists, as [makedirs] uses it:
    an existing directory is kept when [exist_ok]; an existing file is an
    error. *)
Definition mkdir_step (exist_ok : bool) (name : string) (f : filesystem)
    : result filesystem :=
  match f !! name with
  | None => Ok (<[name := Dir]> f)
  | Some Dir => if exist_ok then Ok f else Raise FileExistsError
  | Some _ => Raise FileExistsError
  end.

(** Create the directories above the leaf: those that exist are kept, a
    file among them is an error. *)
Fixpoint mkdir_parents (names : list string) (f : filesystem)
    : result filesystem :=
  match names with
  | [] => Ok f
  | name :: names' =>
      match f !! name with
      | None => mkdir_parents names' (<[name := Dir]> f)
      | Some Dir => mkdir_parents names' f
      | Some _ => Raise NotADirectoryError
      end
  end.

(** [os.makedirs(name, exist_ok=exist_ok)]: the empty path is an error;
    missing parents are created, then the directory itself. *)
Definition os_makedirs (name : string) (exist_ok : bool) : M unit :=
  fun w =>
    if negb (Str.nonempty name) then (Raise FileNotFoundError, w)
    else
      match mkdir_parents (ancestors name) (fs w) with
      | Raise e => (Raise e, w)
      | Ok f1 =>
          match mkdir_step exist_ok name f1 with
          | Raise e => (Raise e, World f1 (figures w))
          | Ok f2 => (Ok tt, World f2 (figures w))
          end
      end.

(** [open(filename, 'r')] and the reading of the whole text. *)
Definition read_text (filename : string) (f : filesystem) : result string :=
  match f !! filename with
  | None => Raise FileNotFoundError
  | Some Dir => Raise IsADirectoryError
  | Some (TextFile text) => Ok text
  | Some (ImageFile _) => Raise UnicodeDecodeError
  end.

(** *** matplotlib.pyplot *)

(** [plt.figure(figsize=size)]: a new figure, which becomes the current
    one. *)
Definition plt_figure (size : Z * Z) : M unit :=
  fun w => (Ok tt, World (fs w) (Figure (Some size) [] :: figures w)).

(** A drawing call acts on the current figure; pyplot opens a figure of
    default size when there is none. *)
Definition plt_draw (c : call) : M unit :=
  fun w =>
    match figures w with
    | [] => (Ok tt, World (fs w) [Figure None [c]])
    | fig :: figs =>
        (Ok tt, World (fs w) (Figure (figsize fig) (calls fig ++ [c]) :: figs))
    end.

(** [plt.savefig(path, dpi=dpi, bbox_inches=bbox)]: write the current
    figure to [path], replacing a file that is there; a directory at
    [path] is an error. *)
Definition plt_savefig (path : string) (dpi : Z) (bbox : string) : M unit :=
  fun w =>
    let fig := match figures w with
               | [] => Figure None []
               | fig :: _ => fig
               end in
    let figs := match figures w with [] => [fig] | _ => figures w end in
    match fs w !! path with
    | Some Dir => (Raise IsADirectoryError, World (fs w) figs)
    | _ => (Ok tt, World (<[path := ImageFile (Image fig dpi bbox)]> (fs w)) figs)
    end.

(** [plt.close()]: close the current figure, if any. *)
Definition plt_close : M unit :=
  fun w => (Ok tt, World (fs w) (tail (figures w))).

(** [np.array(times) / d] for an int [d]: element-wise float64 division. *)
Definition np_divide (times : list float) (d : Z) : list float :=
  map (fun t => Float.div t (Float.of_Z d)) times.

Section Plotter.

Variable max_str_digits : nat.

Definition parse_log_file (filename : string) : M series :=
  fun w =>
    let steps := [] in
    let losses := [] in
    let times := [] in
    (let* text := read_text filename (fs w) in
     parse_lines max_str_digits (splitlines text) (steps, losses, times), w).

(** [output_dir] is [None] when the caller leaves it to its default. *)
Definition create_plots (log_files labels : list string)
    (output_dir : option string) : M unit :=
  let output_dir := default "plots" output_dir in
  os_makedirs output_dir true ;;
  plt_figure (8, 6) ;;
  for_each (zip log_files labels) (fun '(log_file, label) =>
    let! (steps, losses, _) := parse_log_file log_file in
    plt_draw (Plot (Ints steps) losses label 2)) ;;
  plt_draw (Axhline (float_literal "3.28") "grey" ":" (Some 2) "Threshold") ;;
  plt_draw (Xlabel "Training Steps" 12) ;;
  plt_draw (Ylabel "Validation Loss" 12) ;;
  plt_draw (Title "Validation Loss vs Steps" 14 15) ;;
  plt_draw (Grid true "--" (float_literal "0.7")) ;;
  plt_draw (Legend true true true) ;;
  plt_draw TightLayout ;;
  plt_savefig (os_path_join output_dir "validation_vs_steps.png") 300 "tight" ;;
  plt_close ;;
  plt_figure (8, 6) ;;
  for_each (zip log_files labels) (fun '(log_file, label) =>
    let! (_, losses, times) := parse_log_file log_file in
    let times := np_divide times (1000 * 60 * 60) in
    plt_draw (Plot (Floats times) losses label 2)) ;;
  plt_draw (Axhline (float_literal "3.28") "r" ":" None "Threshold") ;;
  plt_draw (Xlabel "Training Time (hours)" 12) ;;
  plt_draw (Ylabel "Validation Loss" 12) ;;
  plt_draw (Title "Validation Loss vs Time" 14 15) ;;
  plt_draw (Grid true "--" (float_literal "0.7")) ;;
  plt_draw (Legend true true true) ;;
  plt_draw TightLayout ;;
  plt_savefig (os_path_join output_dir "validation_vs_time.png") 300 "tight" ;;
  plt_close.

End Plotter.

(** ** Notions the statements use *)

Module Fields.

(** A non-empty run of digits: what [\d+] matches in full. *)
Definition digits (s : string) : bool :=
  Str.nonempty s && Str.all is_digit s.

(** A non-empty run of digits and dots: what [[\d.]+] matches in full. *)
Definition digits_dots (s : string) : bool :=
  Str.nonempty s && Str.all is_digit_or_dot s.

Definition is_dot (c : ascii) : bool := Ascii.eqb c "."%char.

(** At most one dot, at least one digit. *)
Definition decimal_literal (s : string) : bool :=
  (Str.count is_dot s <=? 1)%nat && (1 <=? Str.count is_digit s)%nat.

(** The length of [s] is within the interpreter's limit for [int]. *)
Definition within_int_limit (max_str_digits : nat) (s : string) : bool :=
  negb ((640 <? String.length s)%nat && (0 <? max_str_digits)%nat &&
        (max_str_digits <? String.length s)%nat).

(** The five fields of a log line are of the classes the pattern asks
    for. *)
Definition well_formed (step total val_loss train_time step_avg : string)
    : bool :=
  digits step && digits total && digits_dots val_loss &&
  digits train_time && digits_dots step_avg.

End Fields.

(** Modelled from the spec: the line format of section 6,
    [step:<N>/<TOTAL> val_loss:<FLOAT> train_time:<N>ms step_avg:<FLOAT>ms],
    as a formatter of the five field texts; the repository reads such lines
    and has no code that writes them. *)
Definition format_line (step total val_loss train_time step_avg : string)
    : string :=
  "step:" +:+ step +:+ "/" +:+ total +:+ " val_loss:" +:+ val_loss +:+
  " train_time:" +:+ train_time +:+ "ms step_avg:" +:+ step_avg +:+ "ms".

(** The step text denotes an integer that rounds to a finite float. *)
Definition step_fits_float (step : string) : bool :=
  negb (Float.is_infinite (Float.of_Z (digits_value 0 step))).

(** The groups of a match convert: the conditions under which [int],
    [float] and the product in the loop body do not raise. *)
Definition convertible (max_str_digits : nat) (m : list string) : bool :=
  Fields.within_int_limit max_str_digits (group m 1) &&
  Fields.decimal_literal (group m 2) &&
  Fields.decimal_literal (group m 4) &&
  step_fits_float (group m 1).

(** A line is harmless: it does not match, or its groups convert. *)
Definition line_ok (max_str_digits : nat) (line : string) : bool :=
  match re_match log_pattern line with
  | Some m => convertible max_str_digits m
  | None => true
  end.

(** What one line adds to the three lists: nothing when it does not match,
    its step, loss and time when it does. *)
Definition line_entry (max_str_digits : nat) (line : string)
    : result (option (Z * float * float)) :=
  match re_match log_pattern line with
  | Some m =>
      let* step := py_int max_str_digits (group m 1) in
      let* loss := py_float (group m 2) in
      let* avg_time := py_float (group m 4) in
      let* t := float_mul_int avg_time step in
      Ok (Some (step, loss, t))
  | None => Ok None
  end.

Definition push (e : option (Z * float * float)) (acc : series) : series :=
  match e, acc with
  | Some (step, loss, t), (steps, losses, times) =>
      (steps ++ [step], losses ++ [loss], times ++ [t])
  | None, _ => acc
  end.

(** The entries of all the lines, in order. *)
Fixpoint entries (max_str_digits : nat) (lines : list string)
    : result (list (Z * float * float)) :=
  match lines with
  | [] => Ok []
  | line :: rest =>
      let* e := line_entry max_str_digits line in
      let* es := entries max_str_digits rest in
      Ok (match e with Some x => x :: es | None => es end)
  end.

Definition extend (acc : series) (es : list (Z * float * float)) : series :=
  let '(steps, losses, times) := acc in
  (steps ++ map (fun e => e.1.1) es, losses ++ map (fun e => e.1.2) es,
   times ++ map (fun e => e.2) es).

(** *** The charts *)

Section Charts.

Variable max_str_digits : nat.

(** What [parse_log_file] returns for [filename] on the file system [f]. *)
Definition read_series (f : filesystem) (filename : string)
    : result series :=
  (parse_log_file max_str_digits filename (World f [])).1.

(** The series of all the files, in order, up to the first that fails. *)
Fixpoint parse_all (f : filesystem) (files : list string)
    : result (list series) :=
  match files with
  | [] => Ok []
  | filename :: rest =>
      let* s := read_series f filename in
      let* ss := parse_all f rest in
      Ok (s :: ss)
  end.

End Charts.

(** The line the first chart draws for a labelled series. *)
Definition steps_plot (ls : string * series) : call :=
  let '(label, (steps, losses, _)) := ls in Plot (Ints steps) losses label 2.

(** The line the second chart draws for a labelled series. *)
Definition time_plot (ls : string * series) : call :=
  let '(label, (_, losses, times)) := ls in
  Plot (Floats (np_divide times (1000 * 60 * 60))) losses label 2.

(** The calls that follow the loop in the first and in the second chart. *)
Definition steps_decoration : list call :=
  [ Axhline (float_literal "3.28") "grey" ":" (Some 2) "Threshold";
    Xlabel "Training Steps" 12;
    Ylabel "Validation Loss" 12;
    Title "Validation Loss vs Steps" 14 15;
    Grid true "--" (float_literal "0.7");
    Legend true true true;
    TightLayout ].

Definition time_decoration : list call :=
  [ Axhline (float_literal "3.28") "r" ":" None "Threshold";
    Xlabel "Training Time (hours)" 12;
    Ylabel "Validation Loss" 12;
    Title "Validation Loss vs Time" 14 15;
    Grid true "--" (float_literal "0.7");
    Legend true true true;
    TightLayout ].

(** The two images of a run over the given labels and series. *)
Definition steps_image (labels : list string) (ss : list series) : image :=
  Image (Figure (Some (8, 6)) (map steps_plot (zip labels ss) ++ steps_decoration))
    300 "tight".

Definition time_image (labels : list string) (ss : list series) : image :=
  Image (Figure (Some (8, 6)) (map time_plot (zip labels ss) ++ time_decoration))
    300 "tight".

(** The horizontal lines among the calls of a figure. *)
Definition axhlines (cs : list call) : list call :=
  List.filter (fun c => match c with Axhline _ _ _ _ _ => true | _ => false end) cs.

(** The plotted lines among the calls of a figure. *)
Definition plots (cs : list call) : list call :=
  List.filter (fun c => match c with Plot _ _ _ _ => true | _ => false end) cs.

(** The paths of the two images under the output directory. *)
Definition steps_path (output_dir : option string) : string :=
  os_path_join (default "plots" output_dir) "validation_vs_steps.png".

Definition time_path (output_dir : option string) : string :=
  os_path_join (default "plots" output_dir) "validation_vs_time.png".

(** [savefig] can write to [path]: no directory is in the way. *)
Definition writable (path : string) (f : filesystem) : bool :=
  match f !! path with Some Dir => false | _ => true end.

(** The directories [os.makedirs(name)] leaves in place. *)
Definition dirs_ready (name : string) (f : filesystem) : Prop :=
  Forall (fun a => f !! a = Some Dir) (ancestors name ++ [name]).

(** *** Sample inputs *)

(** A log of three records among other lines, and a log of five. *)
Definition log_three : string :=
"step:0/1000 val_loss:10.8 train_time:0ms step_avg:0.0ms
# warm-up done
step:100/1000 val_loss:3.45 train_time:5000ms step_avg:50.0ms

step:200/1000 val_loss:3.40 train_time:9000ms step_avg:45.0ms
".

Definition log_five : string :=
"step:0/500 val_loss:11 train_time:0ms step_avg:0ms
step:125/500 val_loss:4.2 train_time:5000ms step_avg:40.0ms
step:250/500 val_loss:3.6 train_time:10000ms step_avg:40.0ms
step:375/500 val_loss:3.3 train_time:15000ms step_avg:40.0ms
step:500/500 val_loss:3.27 train_time:20000ms step_avg:40.0ms".

Definition sample_world : world :=
  World {[ "a.txt" := TextFile log_three; "b.txt" := TextFile log_five ]} [].

(** The sample world after a run over the two logs. *)
Definition sample_world_after : world :=
  (create_plots 4300 ["a.txt"; "b.txt"] ["A"; "B"] None sample_world).2.

(** A file whose only record has a loss field with two dots. *)
Definition log_two_dots : string :=
  "step:1/2 val_loss:1.2.3 train_time:3ms step_avg:4ms".

Definition two_dots_world : world :=
  World {[ "run.txt" := TextFile log_two_dots ]} [].

(** A record whose loss is a lone dot, followed by more text, and a world
    holding it as a one-line log. *)
Definition log_dot_then_text : string :=
  "step:1/2 val_loss:. train_time:3ms step_avg:4ms and more text".

Definition dot_then_text_world : world :=
  World {[ "run.txt" := TextFile log_dot_then_text ]} [].

(** ** The script's entry point *)

Section Main.

Variable max_str_digits : nat.


End Main.

(** The sample world once the directory [plots] is made. *)
Definition sample_world_dirs : world :=
  World (<["plots" := Dir]> (fs sample_world)) [].

(** ** Further notions the statements use *)

(** A float that is zero, finite or infinite with the sign bit clear: not
    negative and not a NaN. *)
Definition nonneg_float (x : float) : bool :=
  match x with
  | S754_zero s | S754_infinity s | S754_finite s _ _ => negb s
  | S754_nan => false
  end.

(** The text with every LF written as CR LF. *)
Fixpoint to_crlf (s : string) : string :=
  match s with
  | EmptyString => EmptyString
  | String c s' =>
      if Ascii.eqb c "010"%char
      then String "013"%char (String "010"%char (to_crlf s'))
      else String c (to_crlf s')
  end.

Definition is_cr (c : ascii) : bool := Ascii.eqb c "013"%char.

(** The text without its first character when that is an LF. *)
Definition skip_lf (s : string) : string :=
  match s with
  | String c s' => if Ascii.eqb c "010"%char then s' else s
  | EmptyString => s
  end.

(** The x and y data of a plotted line have the same length, which
    matplotlib requires of [plot]. *)
Definition plot_lengths_agree (c : call) : bool :=
  match c with
  | Plot (Ints x) y _ _ => (length x =? length y)%nat
  | Plot (Floats x) y _ _ => (length x =? length y)%nat
  | _ => true
  end.

(** Apart from the paths [p1] and [p2], the file system [f'] is [f] with
    at most some new directories: no other entry is changed or removed. *)
Definition fs_grows (p1 p2 : string) (f f' : filesystem) : Prop :=
  forall k, k <> p1 -> k <> p2 ->
    f' !! k = f !! k \/ (f !! k = None /\ f' !! k = Some Dir).

(** * Properties *)

(** ** Strings *)

Lemma append_cons (c : ascii) (a b : string) :
  String c a +:+ b = String c (a +:+ b).
Proof. reflexivity. Qed.

Lemma append_nil_l (s : string) : "" +:+ s = s.
Proof. reflexivity. Qed.

Lemma append_nil_r (s : string) : s +:+ "" = s.
Proof. induction s as [|c s IH]; [done|]. by rewrite append_cons, IH. Qed.

Lemma append_assoc (a b c : string) : (a +:+ b) +:+ c = a +:+ b +:+ c.
Proof. induction a as [|x a IH]; [done|]. by rewrite !append_cons, IH. Qed.

Lemma span_append (p : ascii -> bool) (s : string) :
  (Str.span p s).1 +:+ (Str.span p s).2 = s.
Proof.
  induction s as [|c s IH]; [done|]. cbn.
  destruct (p c); [|done].
  destruct (Str.span p s) as [w r]. cbn in *. by rewrite append_cons, IH.
Qed.

Lemma span_all (p : ascii -> bool) (s : string) :
  Str.all p (Str.span p s).1 = true.
Proof.
  induction s as [|c s IH]; [done|]. cbn.
  destruct (p c) eqn:Hc; [|done].
  destruct (Str.span p s) as [w r]. cbn in *. by rewrite Hc.
Qed.

Lemma span_stops (p : ascii -> bool) (s : string) :
  Str.stops p (Str.span p s).2 = true.
Proof.
  induction s as [|c s IH]; [done|]. cbn.
  destruct (p c) eqn:Hc; [|by cbn; rewrite Hc].
  by destruct (Str.span p s) as [w r].
Qed.

(** The longest prefix in the class is found by its two properties. *)
Lemma span_unique (p : ascii -> bool) (w r : string) :
  Str.all p w = true -> Str.stops p r = true -> Str.span p (w +:+ r) = (w, r).
Proof.
  intros Hw Hr. induction w as [|c w IH].
  - rewrite append_nil_l. destruct r as [|c r]; [done|]. cbn in *.
    by destruct (p c).
  - cbn in Hw. apply andb_true_iff in Hw as [Hc Hw].
    rewrite append_cons. cbn. rewrite Hc, (IH Hw). done.
Qed.

(** ** The matcher *)

(** When the continuation rejects every rest that begins with a character
    of the class, giving characters back never helps: the greedy
    repetition takes the longest run or fails. *)
Lemma greedy1_longest {A : Type} (p : ascii -> bool)
    (k : string -> string -> option A) (s : string) :
  (forall w c r, p c = true -> k w (String c r) = None) ->
  greedy1 p k s =
    if Str.nonempty (Str.span p s).1
    then k (Str.span p s).1 (Str.span p s).2 else None.
Proof.
  revert k. induction s as [|c s IH]; intros k Hk; [done|].
  cbn. destruct (p c) eqn:Hc; [|done].
  rewrite IH by (intros; by apply Hk).
  destruct (Str.span p s) as [w r] eqn:Hspan. cbn.
  destruct w as [|c' w]; cbn.
  - pose proof (span_append p s) as Happ. rewrite Hspan in Happ. cbn in Happ.
    rewrite append_nil_l in Happ. by subst r.
  - destruct (k (String c (String c' w)) r) eqn:Hk1; [done|].
    pose proof (span_append p s) as Happ. pose proof (span_all p s) as Hall.
    rewrite Hspan in Happ, Hall. cbn in Happ, Hall.
    apply andb_true_iff in Hall as [Hc' _].
    rewrite <- Happ, append_cons. by apply Hk.
Qed.

Lemma match_lit_app (pre : string) (ts : list token) (s : string)
    (gs : list string) :
  match_tokens (lit pre ++ ts) (pre +:+ s) gs = match_tokens ts s gs.
Proof.
  induction pre as [|c pre IH]; [done|].
  rewrite append_cons. cbn. by rewrite Ascii.eqb_refl.
Qed.

Lemma match_lit_inv (pre : string) (ts : list token) (s : string)
    (gs m : list string) :
  match_tokens (lit pre ++ ts) s gs = Some m ->
  exists r, s = pre +:+ r /\ match_tokens ts r gs = Some m.
Proof.
  revert s. induction pre as [|c pre IH]; intros s H.
  - by exists s.
  - cbn in H. destruct s as [|c' s]; [done|].
    destruct (Ascii.eqb c c') eqn:Hc; [|done].
    apply Ascii.eqb_eq in Hc as <-.
    destruct (IH _ H) as (r & -> & Hr). by exists r.
Qed.

(** A repetition followed by a literal character outside its class takes
    the longest run of the class. *)
Lemma match_rep1_lit (cap : bool) (cs : charset) (c : ascii)
    (ts : list token) (s : string) (gs : list string) :
  in_charset cs c = false ->
  match_tokens (Rep1 cap cs :: Lit c :: ts) s gs =
    let '(w, r) := Str.span (in_charset cs) s in
    if Str.nonempty w
    then match_tokens (Lit c :: ts) r (if cap then gs ++ [w] else gs)
    else None.
Proof.
  intros Hc. cbn [match_tokens]. rewrite greedy1_longest.
  - by destruct (Str.span (in_charset cs) s).
  - intros w c' r Hc'. destruct (Ascii.eqb c c') eqn:E; [|done].
    apply Ascii.eqb_eq in E. congruence.
Qed.

Lemma match_rep1_lit_app (cap : bool) (cs : charset) (c : ascii)
    (pre : string) (ts : list token) (w r : string) (gs : list string) :
  in_charset cs c = false ->
  Str.nonempty w && Str.all (in_charset cs) w = true ->
  match_tokens ([Rep1 cap cs] ++ lit (String c pre) ++ ts)
    (w +:+ String c pre +:+ r) gs =
  match_tokens ts r (if cap then gs ++ [w] else gs).
Proof.
  intros Hc [Hne Hall]%andb_true_iff.
  change ([Rep1 cap cs] ++ lit (String c pre) ++ ts)
    with (Rep1 cap cs :: Lit c :: (lit pre ++ ts)).
  rewrite match_rep1_lit by done.
  rewrite span_unique; [|done|by rewrite append_cons; cbn; rewrite Hc].
  rewrite Hne. change (Lit c :: lit pre ++ ts) with (lit (String c pre) ++ ts).
  apply match_lit_app.
Qed.

Lemma match_rep1_lit_inv (cap : bool) (cs : charset) (c : ascii)
    (pre : string) (ts : list token) (s : string) (gs m : list string) :
  in_charset cs c = false ->
  match_tokens ([Rep1 cap cs] ++ lit (String c pre) ++ ts) s gs = Some m ->
  exists w r,
    s = w +:+ String c pre +:+ r /\
    Str.nonempty w && Str.all (in_charset cs) w = true /\
    match_tokens ts r (if cap then gs ++ [w] else gs) = Some m.
Proof.
  intros Hc.
  change ([Rep1 cap cs] ++ lit (String c pre) ++ ts)
    with (Rep1 cap cs :: Lit c :: (lit pre ++ ts)).
  rewrite match_rep1_lit by done.
  pose proof (span_append (in_charset cs) s) as Happ.
  pose proof (span_all (in_charset cs) s) as Hall.
  destruct (Str.span (in_charset cs) s) as [w r0]. cbn in Happ, Hall.
  destruct (Str.nonempty w) eqn:Hne; [|done].
  change (Lit c :: lit pre ++ ts) with (lit (String c pre) ++ ts).
  intros (r & -> & Hr)%match_lit_inv.
  exists w, r. by rewrite Hne, Hall.
Qed.

(** A line that is a formatted record, whatever follows it, matches, and
    the groups are the step, val_loss, train_time and step_avg fields. *)
Lemma re_match_format (step total val_loss train_time step_avg rest : string) :
  Fields.well_formed step total val_loss train_time step_avg = true ->
  re_match log_pattern
    (format_line step total val_loss train_time step_avg +:+ rest)
  = Some [step; val_loss; train_time; step_avg].
Proof.
  unfold Fields.well_formed, Fields.digits, Fields.digits_dots.
  intros [[[[H1 H2]%andb_true_iff H3]%andb_true_iff H4]%andb_true_iff H5]%andb_true_iff.
  unfold re_match, log_pattern, format_line.
  rewrite <- (List.app_nil_r (lit "ms")), !append_assoc.
  rewrite match_lit_app.
  do 4 (rewrite match_rep1_lit_app by done).
  rewrite match_rep1_lit_app by done. done.
Qed.

(** Conversely a matching line is a formatted record followed by some
    rest. *)
Lemma re_match_inv (line : string) (m : list string) :
  re_match log_pattern line = Some m ->
  exists step total val_loss train_time step_avg rest,
    Fields.well_formed step total val_loss train_time step_avg = true /\
    line = format_line step total val_loss train_time step_avg +:+ rest /\
    m = [step; val_loss; train_time; step_avg].
Proof.
  unfold re_match, log_pattern.
  rewrite <- (List.app_nil_r (lit "ms")).
  intros (r0 & -> & H)%match_lit_inv.
  apply match_rep1_lit_inv in H as (g1 & r1 & -> & H1 & H); [|done].
  apply match_rep1_lit_inv in H as (tot & r2 & -> & H2 & H); [|done].
  apply match_rep1_lit_inv in H as (g2 & r3 & -> & H3 & H); [|done].
  apply match_rep1_lit_inv in H as (g3 & r4 & -> & H4 & H); [|done].
  apply match_rep1_lit_inv in H as (g4 & r5 & -> & H5 & H); [|done].
  cbn in H. injection H as <-.
  exists g1, tot, g2, g3, g4, r5. split; [|split; [|done]].
  - unfold Fields.well_formed, Fields.digits, Fields.digits_dots.
    cbn in H1, H2, H3, H4, H5. by rewrite H1, H2, H3, H4, H5.
  - unfold format_line. by rewrite !append_assoc.
Qed.

(** ** Numbers *)

Lemma digit_not_dot (c : ascii) : is_digit c = true -> Fields.is_dot c = false.
Proof.
  unfold Fields.is_dot. intros Hc.
  destruct (Ascii.eqb c ".") eqn:E; [|done].
  apply Ascii.eqb_eq in E. by subst c.
Qed.

Lemma digit_or_dot_cases (c : ascii) :
  is_digit_or_dot c = true ->
  (is_digit c = true /\ Fields.is_dot c = false) \/
  (is_digit c = false /\ Fields.is_dot c = true).
Proof.
  unfold is_digit_or_dot. fold (Fields.is_dot c).
  destruct (is_digit c) eqn:Hd; intros H.
  - left. split; [done|]. by apply digit_not_dot.
  - right. by split.
Qed.

Lemma all_digit_no_dot (s : string) :
  Str.all is_digit_or_dot s = true ->
  Str.all is_digit s = (Str.count Fields.is_dot s =? 0)%nat.
Proof.
  induction s as [|c s IH]; [done|]. cbn.
  intros [Hc Hs]%andb_true_iff.
  destruct (digit_or_dot_cases c Hc) as [[-> ->]|[-> ->]]; cbn; [|done].
  by apply IH.
Qed.

Lemma all_digit_count (s : string) :
  Str.all is_digit s = true -> Str.count is_digit s = String.length s.
Proof.
  induction s as [|c s IH]; [done|]. cbn.
  intros [-> Hs]%andb_true_iff. by rewrite IH.
Qed.

Lemma all_digit_or_dot_of_digit (s : string) :
  Str.all is_digit s = true -> Str.all is_digit_or_dot s = true.
Proof.
  induction s as [|c s IH]; [done|]. cbn.
  intros [Hc Hs]%andb_true_iff. rewrite (IH Hs).
  unfold is_digit_or_dot. by rewrite Hc.
Qed.

Lemma length_append (a b : string) :
  String.length (a +:+ b) = (String.length a + String.length b)%nat.
Proof. induction a as [|c a IH]; [done|]. rewrite append_cons. cbn. by rewrite IH. Qed.

Lemma nonempty_length (s : string) :
  Str.nonempty s = (1 <=? String.length s)%nat.
Proof. by destruct s. Qed.

(** What [split_dot] returns on a string of digits and dots. *)
Lemma split_dot_spec (s : string) :
  Str.all is_digit_or_dot s = true ->
  Str.all is_digit (split_dot s).1 = true /\
  Str.all is_digit_or_dot (default "" (split_dot s).2) = true /\
  Str.count Fields.is_dot s =
    match (split_dot s).2 with
    | None => O
    | Some f => S (Str.count Fields.is_dot f)
    end /\
  Str.count is_digit s =
    (String.length (split_dot s).1 +
     Str.count is_digit (default "" (split_dot s).2))%nat.
Proof.
  induction s as [|c s IH]; [done|]. cbn.
  intros [Hc Hs]%andb_true_iff.
  destruct (digit_or_dot_cases c Hc) as [[Hd Hdot]|[Hd Hdot]];
    unfold Fields.is_dot in Hdot; rewrite Hd, Hdot; fold (Fields.is_dot c).
  - destruct (IH Hs) as (H1 & H2 & H3 & H4).
    destruct (split_dot s) as [a b]. cbn in *.
    fold (Fields.is_dot c). rewrite Hd, (digit_not_dot c Hd). cbn.
    by rewrite H1, H3, H4.
  - cbn. unfold Fields.is_dot. rewrite Hdot. done.
Qed.

(** On the strings the float groups can hold, [float] succeeds exactly on
    those with at most one dot and at least one digit. *)
Lemma py_float_ok (s : string) :
  Str.all is_digit_or_dot s = true ->
  is_ok (py_float s) = Fields.decimal_literal s.
Proof.
  intros Hs. destruct (split_dot_spec s Hs) as (H1 & H2 & H3 & H4).
  unfold py_float, Fields.decimal_literal.
  destruct (split_dot s) as [a b]. cbn in *.
  rewrite H1, H3, H4, nonempty_length, length_append. cbn.
  destruct b as [f|]; cbn in *.
  - rewrite (all_digit_no_dot f H2).
    destruct (Str.count Fields.is_dot f) as [|n] eqn:Hn; cbn.
    + rewrite all_digit_count by (by rewrite all_digit_no_dot, Hn).
      by destruct (String.length a + String.length f)%nat.
    + done.
  - by destruct (String.length a + 0)%nat.
Qed.

Lemma py_float_raises (s : string) (e : exn) :
  py_float s = Raise e -> e = ValueError.
Proof.
  unfold py_float. destruct (split_dot s) as [a b].
  destruct (_ && _ && _); [done|]. by intros [= <-].
Qed.

(** On the strings the integer groups can hold, [int] succeeds exactly
    within the interpreter's length limit, and gives the decimal value. *)
Lemma py_int_digits (lim : nat) (s : string) :
  Fields.digits s = true ->
  py_int lim s =
    if Fields.within_int_limit lim s then Ok (digits_value 0 s)
    else Raise ValueError.
Proof.
  unfold Fields.digits, py_int, Fields.within_int_limit. intros ->.
  by destruct (_ && _ && _).
Qed.

(** ** The parser *)

Section ParserFacts.

Variable lim : nat.

Lemma parse_line_entry (line : string) (acc : series) :
  parse_line lim line acc =
    let* e := line_entry lim line in Ok (push e acc).
Proof.
  unfold parse_line, line_entry. destruct acc as [[steps losses] times].
  destruct (re_match log_pattern line) as [m|]; [|done].
  destruct (py_int lim (group m 1)) as [step|]; [|done].
  destruct (py_float (group m 2)) as [loss|]; [|done].
  destruct (py_float (group m 4)) as [avg|]; [|done]. cbn.
  by destruct (float_mul_int avg step).
Qed.

Lemma push_extend (e : option (Z * float * float)) (acc : series)
    (es : list (Z * float * float)) :
  extend (push e acc) es =
    extend acc (match e with Some x => x :: es | None => es end).
Proof.
  destruct acc as [[steps losses] times].
  destruct e as [[[step loss] t]|]; [|done].
  cbn. by rewrite <- !List.app_assoc.
Qed.

Lemma parse_lines_entries (lines : list string) (acc : series) :
  parse_lines lim lines acc =
    let* es := entries lim lines in Ok (extend acc es).
Proof.
  revert acc. induction lines as [|line rest IH]; intros acc.
  - destruct acc as [[steps losses] times]. cbn.
    by rewrite !List.app_nil_r.
  - cbn. rewrite parse_line_entry.
    destruct (line_entry lim line) as [e|]; [|done]. cbn.
    rewrite IH. destruct (entries lim rest) as [es|]; [|done]. cbn.
    by rewrite push_extend.
Qed.

Lemma line_entry_no_match (line : string) :
  matches line = false -> line_entry lim line = Ok None.
Proof.
  unfold matches, line_entry.
  by destruct (re_match log_pattern line).
Qed.

(** The groups of a match are of the classes their conversions expect. *)
Lemma groups_classes (line : string) (m : list string) :
  re_match log_pattern line = Some m ->
  Fields.digits (group m 1) = true /\
  Fields.digits_dots (group m 2) = true /\
  Fields.digits (group m 3) = true /\
  Fields.digits_dots (group m 4) = true.
Proof.
  intros (g1 & tot & g2 & g3 & g4 & rest & Hwf & _ & ->)%re_match_inv.
  unfold Fields.well_formed in Hwf. cbn.
  do 4 (apply andb_true_iff in Hwf as [Hwf ?]). auto.
Qed.

(** A matching line yields an entry exactly when its groups convert, and
    the entry is then the step, the loss, and the product of the average
    step time and the step. *)
Lemma line_entry_match (line : string) (m : list string) :
  re_match log_pattern line = Some m ->
  if convertible lim m then
    exists step loss avg,
      py_int lim (group m 1) = Ok step /\
      py_float (group m 2) = Ok loss /\
      py_float (group m 4) = Ok avg /\
      line_entry lim line =
        Ok (Some (step, loss, Float.mul avg (Float.of_Z step)))
  else is_ok (line_entry lim line) = false.
Proof.
  intros Hm. destruct (groups_classes line m Hm) as (H1 & H2 & _ & H4).
  unfold line_entry, convertible, step_fits_float. rewrite Hm.
  rewrite (py_int_digits lim _ H1).
  apply andb_true_iff in H2 as [_ H2]. apply andb_true_iff in H4 as [_ H4].
  pose proof (py_float_ok _ H2) as E2. pose proof (py_float_ok _ H4) as E4.
  destruct (Fields.within_int_limit lim (group m 1)); [|done]. cbn.
  destruct (py_float (group m 2)) as [loss|]; cbn in E2; rewrite <- E2;
    [|done]. cbn.
  destruct (py_float (group m 4)) as [avg|]; cbn in E4; rewrite <- E4;
    [|done]. cbn.
  unfold float_mul_int, int_as_float.
  destruct (Float.is_infinite (Float.of_Z (digits_value 0 (group m 1))));
    [done|]. cbn.
  by exists (digits_value 0 (group m 1)), loss, avg.
Qed.

(** Lines that do not match add nothing, whatever the other lines do. *)
Lemma entries_filter (lines : list string) :
  entries lim lines = entries lim (List.filter matches lines).
Proof.
  induction lines as [|line rest IH]; [done|]. cbn.
  destruct (matches line) eqn:Hm; cbn; rewrite IH; [done|].
  rewrite (line_entry_no_match line Hm). cbn.
  by destruct (entries lim (List.filter matches rest)).
Qed.

End ParserFacts.

Section ParserSeries.

Variable lim : nat.

Lemma filter_all_match (lines : list string) :
  forallb matches (List.filter matches lines) = true.
Proof.
  induction lines as [|line rest IH]; [done|]. cbn.
  destruct (matches line) eqn:Hm; [|done]. cbn. by rewrite Hm.
Qed.

(** When every line matches and converts, there is one entry per line,
    made of that line's numbers. *)
Lemma entries_of_matching (ms : list string) :
  forallb matches ms = true ->
  forallb (line_ok lim) ms = true ->
  exists es,
    entries lim ms = Ok es /\
    length es = length ms /\
    forall (i : nat) (line : string),
      ms !! i = Some line ->
      exists m step loss avg,
        re_match log_pattern line = Some m /\
        py_int lim (group m 1) = Ok step /\
        py_float (group m 2) = Ok loss /\
        py_float (group m 4) = Ok avg /\
        es !! i = Some (step, loss, Float.mul avg (Float.of_Z step)).
Proof.
  induction ms as [|line rest IH]; cbn.
  - intros _ _. exists []. by repeat split.
  - intros [Hm Hms]%andb_true_iff [Hok Hoks]%andb_true_iff.
    destruct (IH Hms Hoks) as (es & Hes & Hlen & Hval).
    unfold matches in Hm. unfold line_ok in Hok.
    destruct (re_match log_pattern line) as [m|] eqn:Hre; [|done].
    pose proof (line_entry_match lim line m Hre) as Hentry.
    rewrite Hok in Hentry.
    destruct Hentry as (step & loss & avg & H1 & H2 & H4 & Hentry).
    rewrite Hentry, Hes. cbn.
    eexists. split; [done|]. split; [by cbn; rewrite Hlen|].
    intros [|i] l Hl; cbn in *.
    + injection Hl as <-. exists m, step, loss, avg. by rewrite Hre.
    + by apply Hval.
Qed.

End ParserSeries.

(** ** Claims about parse_log_file *)

(** C1, as stated, fails: a file with one matching line whose loss field
    is [1.2.3] has K = 1, yet [parse_log_file] raises ValueError and
    returns no sequences. *)
Lemma parse_log_file_matching_line_raises :
  length (List.filter matches (splitlines log_two_dots)) = 1%nat /\
  parse_log_file 4300 "run.txt" two_dots_world
    = (Raise ValueError, two_dots_world).
Proof. split; vm_compute; reflexivity. Qed.

(** C1 (amended): for a file with K matching lines whose groups all
    convert, [parse_log_file] returns three lists of length K, and at every
    index i the step is the int of group 1 of the i-th matching line, the
    loss the float of its group 2, and the time the float of its group 4
    times the step: the product, not a sum of train_time fields. *)
Theorem parse_log_file_series (lim : nat) (filename text : string)
    (w : world) :
  fs w !! filename = Some (TextFile text) ->
  forallb (line_ok lim) (List.filter matches (splitlines text)) = true ->
  exists steps losses times,
    parse_log_file lim filename w = (Ok (steps, losses, times), w) /\
    length steps = length (List.filter matches (splitlines text)) /\
    length losses = length (List.filter matches (splitlines text)) /\
    length times = length (List.filter matches (splitlines text)) /\
    forall (i : nat) (line : string),
      List.filter matches (splitlines text) !! i = Some line ->
      exists m step loss step_avg,
        re_match log_pattern line = Some m /\
        py_int lim (group m 1) = Ok step /\
        py_float (group m 2) = Ok loss /\
        py_float (group m 4) = Ok step_avg /\
        steps !! i = Some step /\
        losses !! i = Some loss /\
        times !! i = Some (Float.mul step_avg (Float.of_Z step)).
Proof.
  intros Hfile Hok.
  destruct (entries_of_matching lim _ (filter_all_match _) Hok)
    as (es & Hes & Hlen & Hval).
  exists (map (fun e => e.1.1) es), (map (fun e => e.1.2) es),
    (map (fun e => e.2) es).
  split.
  - unfold parse_log_file, read_text. rewrite Hfile. cbn.
    by rewrite parse_lines_entries, entries_filter, Hes.
  - rewrite !length_map, Hlen. repeat split.
    intros i line Hline.
    destruct (Hval i line Hline) as (m & step & loss & avg & ? & ? & ? & ? & Hi).
    exists m, step, loss, avg. repeat split; try done.
    all: change (map ?f es) with (f <$> es); by rewrite list_lookup_fmap, Hi.
Qed.

Lemma parse_log_file_series_witness :
  (fs sample_world !! "a.txt" = Some (TextFile log_three) /\
   forallb (line_ok 4300) (List.filter matches (splitlines log_three)) = true) /\
  exists steps losses times,
    parse_log_file 4300 "a.txt" sample_world
      = (Ok (steps, losses, times), sample_world) /\
    length steps = length (List.filter matches (splitlines log_three)) /\
    length losses = length (List.filter matches (splitlines log_three)) /\
    length times = length (List.filter matches (splitlines log_three)) /\
    forall (i : nat) (line : string),
      List.filter matches (splitlines log_three) !! i = Some line ->
      exists m step loss step_avg,
        re_match log_pattern line = Some m /\
        py_int 4300 (group m 1) = Ok step /\
        py_float (group m 2) = Ok loss /\
        py_float (group m 4) = Ok step_avg /\
        steps !! i = Some step /\
        losses !! i = Some loss /\
        times !! i = Some (Float.mul step_avg (Float.of_Z step)).
Proof.
  split.
  - split; vm_compute; reflexivity.
  - apply (parse_log_file_series 4300 "a.txt" log_three sample_world);
      vm_compute; reflexivity.
Defined.

(** The example of the spec: the line gives step 100, loss 3.45 and time
    50.0 * 100 = 5000.0. *)
Example parse_log_file_example :
  parse_lines 4300
    (splitlines "step:100/1000 val_loss:3.45 train_time:5000ms step_avg:50.0ms")
    ([], [], [])
  = Ok ([100], [float_literal "3.45"], [Float.of_Z 5000]).
Proof. vm_compute. reflexivity. Qed.

(** Two more ways for a matching line to raise: a step of 310 digits does
    not fit a float, so the product is an OverflowError; a step of 4301
    digits is over the default limit of [int]. *)
Example huge_step_overflows :
  parse_line 4300
    (format_line (String "1" (Str.repeat "0" 309)) "1" "1" "1" "1")
    ([], [], []) = Raise OverflowError.
Proof. vm_compute. reflexivity. Qed.

Example long_step_over_int_limit :
  parse_line 4300
    (format_line (Str.repeat "0" 4301) "1" "1" "1" "1") ([], [], [])
    = Raise ValueError /\
  is_ok (parse_line 0
           (format_line (Str.repeat "0" 4301) "1" "1" "1" "1") ([], [], []))
    = true.
Proof. split; vm_compute; reflexivity. Qed.

(** C2, as stated, fails: the line below matches the pattern, its loss
    group is a lone dot, and [float] raises ValueError on it; the loop body
    raises with it. *)
Lemma matching_line_float_raises :
  re_match log_pattern "step:1/2 val_loss:. train_time:3ms step_avg:4ms"
    = Some ["1"; "."; "3"; "4"] /\
  py_float "." = Raise ValueError /\
  parse_line 4300 "step:1/2 val_loss:. train_time:3ms step_avg:4ms"
    ([], [], []) = Raise ValueError.
Proof. repeat split; vm_compute; reflexivity. Qed.

(** C2 (amended): on a matching line the step group always holds digits
    only, and [int] converts it unless it is longer than the interpreter's
    limit; each of the two float groups converts exactly when it holds at
    most one dot and at least one digit.  When one of the three does not
    convert, the loop body raises ValueError. *)
Theorem captured_numbers_parse (lim : nat) (line : string)
    (m : list string) :
  re_match log_pattern line = Some m ->
  is_ok (py_int lim (group m 1)) = Fields.within_int_limit lim (group m 1) /\
  is_ok (py_float (group m 2)) = Fields.decimal_literal (group m 2) /\
  is_ok (py_float (group m 4)) = Fields.decimal_literal (group m 4) /\
  (Fields.within_int_limit lim (group m 1) &&
   Fields.decimal_literal (group m 2) &&
   Fields.decimal_literal (group m 4) = false ->
   forall acc, parse_line lim line acc = Raise ValueError).
Proof.
  intros Hm. destruct (groups_classes line m Hm) as (H1 & H2 & _ & H4).
  pose proof (py_int_digits lim _ H1) as E1.
  apply andb_true_iff in H2 as [_ H2]. apply andb_true_iff in H4 as [_ H4].
  pose proof (py_float_ok _ H2) as E2. pose proof (py_float_ok _ H4) as E4.
  repeat split; [by rewrite E1; destruct (Fields.within_int_limit _ _)|done..|].
  intros Hbad [[steps losses] times]. unfold parse_line. rewrite Hm, E1.
  rewrite <- E2, <- E4 in Hbad.
  destruct (Fields.within_int_limit lim (group m 1)); [|done]. cbn.
  pose proof (py_float_raises (group m 2)) as R2.
  pose proof (py_float_raises (group m 4)) as R4.
  destruct (py_float (group m 2)) as [loss|e2]; [|by rewrite (R2 e2)]. cbn.
  destruct (py_float (group m 4)) as [avg|e4]; [done|by rewrite (R4 e4)].
Qed.

Lemma captured_numbers_parse_witness :
  re_match log_pattern "step:7/9 val_loss:3..3 train_time:12ms step_avg:1.5ms"
    = Some ["7"; "3..3"; "12"; "1.5"] /\
  is_ok (py_int 4300 "7") = Fields.within_int_limit 4300 "7" /\
  is_ok (py_float "3..3") = Fields.decimal_literal "3..3" /\
  is_ok (py_float "1.5") = Fields.decimal_literal "1.5" /\
  (Fields.within_int_limit 4300 "7" && Fields.decimal_literal "3..3" &&
   Fields.decimal_literal "1.5" = false ->
   forall acc,
     parse_line 4300 "step:7/9 val_loss:3..3 train_time:12ms step_avg:1.5ms"
       acc = Raise ValueError).
Proof.
  split; [vm_compute; reflexivity|].
  apply (captured_numbers_parse 4300
           "step:7/9 val_loss:3..3 train_time:12ms step_avg:1.5ms"
           ["7"; "3..3"; "12"; "1.5"]).
  vm_compute. reflexivity.
Defined.

(** C3: a line that does not match leaves the three lists as they are and
    raises nothing; the outcome for a file is that of its matching lines
    alone; and a file with no matching line, the empty file included, gives
    three empty lists. *)
Theorem parse_log_file_skips_non_matching (lim : nat)
    (filename text : string) (w : world) :
  fs w !! filename = Some (TextFile text) ->
  (forall line acc, matches line = false -> parse_line lim line acc = Ok acc) /\
  parse_log_file lim filename w =
    (parse_lines lim (List.filter matches (splitlines text)) ([], [], []), w) /\
  (List.filter matches (splitlines text) = [] ->
   parse_log_file lim filename w = (Ok ([], [], []), w)) /\
  (text = "" -> parse_log_file lim filename w = (Ok ([], [], []), w)).
Proof.
  intros Hfile.
  assert (parse_log_file lim filename w =
    (parse_lines lim (List.filter matches (splitlines text)) ([], [], []), w))
    as Hrun.
  { unfold parse_log_file, read_text. rewrite Hfile. cbn.
    by rewrite !parse_lines_entries, <- entries_filter. }
  repeat split; [|done|..].
  - intros line acc Hm. rewrite parse_line_entry.
    by rewrite (line_entry_no_match lim line Hm).
  - intros Hnone. by rewrite Hrun, Hnone.
  - intros ->. by rewrite Hrun.
Qed.

Lemma parse_log_file_skips_non_matching_witness :
  fs (World {[ "run.txt" := TextFile "# no records here" ]} []) !! "run.txt"
    = Some (TextFile "# no records here") /\
  List.filter matches (splitlines "# no records here") = [] /\
  parse_log_file 4300 "run.txt"
    (World {[ "run.txt" := TextFile "# no records here" ]} [])
  = (Ok ([], [], []),
     World {[ "run.txt" := TextFile "# no records here" ]} []).
Proof.
  split; [vm_compute; reflexivity|]. split; [vm_compute; reflexivity|].
  refine (proj1 (proj2 (proj2
    (parse_log_file_skips_non_matching 4300 "run.txt" "# no records here"
       (World {[ "run.txt" := TextFile "# no records here" ]} []) _))) _);
    vm_compute; reflexivity.
Defined.

(** C9: a matching line is the formatted text of its fields followed by
    some rest; formatting the fields again (the four groups, and the total
    the line showed) gives a line that matches with the same groups, and
    from which the loop extracts the same entry. *)
Theorem regex_fields_round_trip (lim : nat) (line : string)
    (m : list string) :
  re_match log_pattern line = Some m ->
  exists total rest,
    Fields.well_formed (group m 1) total (group m 2) (group m 3) (group m 4)
      = true /\
    line =
      format_line (group m 1) total (group m 2) (group m 3) (group m 4)
      +:+ rest /\
    re_match log_pattern
      (format_line (group m 1) total (group m 2) (group m 3) (group m 4))
      = Some m /\
    line_entry lim
      (format_line (group m 1) total (group m 2) (group m 3) (group m 4))
      = line_entry lim line.
Proof.
  intros Hm.
  destruct (re_match_inv line m Hm)
    as (g1 & tot & g2 & g3 & g4 & rest & Hwf & Hline & ->).
  exists tot, rest. cbn [group Nat.sub nth].
  pose proof (re_match_format g1 tot g2 g3 g4 "" Hwf) as Hfmt.
  rewrite append_nil_r in Hfmt.
  repeat split; try done.
  unfold line_entry. by rewrite Hfmt, Hm.
Qed.

Lemma regex_fields_round_trip_witness :
  re_match log_pattern
    "step:100/1000 val_loss:3.45 train_time:5000ms step_avg:50.0ms tail"
    = Some ["100"; "3.45"; "5000"; "50.0"] /\
  exists total rest,
    Fields.well_formed "100" total "3.45" "5000" "50.0" = true /\
    "step:100/1000 val_loss:3.45 train_time:5000ms step_avg:50.0ms tail" =
      format_line "100" total "3.45" "5000" "50.0" +:+ rest /\
    re_match log_pattern (format_line "100" total "3.45" "5000" "50.0")
      = Some ["100"; "3.45"; "5000"; "50.0"] /\
    line_entry 4300 (format_line "100" total "3.45" "5000" "50.0")
      = line_entry 4300
          "step:100/1000 val_loss:3.45 train_time:5000ms step_avg:50.0ms tail".
Proof.
  split; [vm_compute; reflexivity|].
  apply (regex_fields_round_trip 4300
           "step:100/1000 val_loss:3.45 train_time:5000ms step_avg:50.0ms tail"
           ["100"; "3.45"; "5000"; "50.0"]).
  vm_compute. reflexivity.
Defined.

(** Formatting well-formed fields and matching the line gives the fields
    back. *)
Lemma format_then_match (step total val_loss train_time step_avg : string) :
  Fields.well_formed step total val_loss train_time step_avg = true ->
  re_match log_pattern (format_line step total val_loss train_time step_avg)
  = Some [step; val_loss; train_time; step_avg].
Proof.
  intros Hwf. rewrite <- (append_nil_r (format_line _ _ _ _ _)).
  by apply re_match_format.
Qed.

Lemma startswith_append (pre s : string) : Str.startswith pre (pre +:+ s) = true.
Proof.
  induction pre as [|c pre IH]; [done|].
  rewrite append_cons. cbn. by rewrite Ascii.eqb_refl.
Qed.

(** Text after a match changes nothing: the groups are the same and the
    loop body has the same outcome. *)
Lemma trailing_text_ignored (lim : nat) (line extra : string)
    (m : list string) :
  re_match log_pattern line = Some m ->
  re_match log_pattern (line +:+ extra) = Some m /\
  forall acc, parse_line lim (line +:+ extra) acc = parse_line lim line acc.
Proof.
  intros Hm.
  assert (re_match log_pattern (line +:+ extra) = Some m) as Hext.
  { destruct (re_match_inv line m Hm)
      as (g1 & tot & g2 & g3 & g4 & rest & Hwf & -> & ->).
    rewrite append_assoc. by apply re_match_format. }
  split; [done|]. intros acc. rewrite !parse_line_entry. unfold line_entry.
  by rewrite Hext, Hm.
Qed.

(** A line that does not begin with [step:] does not match and adds
    nothing. *)
Lemma no_match_without_prefix (lim : nat) (line : string) :
  Str.startswith "step:" line = false ->
  re_match log_pattern line = None /\
  forall acc, parse_line lim line acc = Ok acc.
Proof.
  intros Hpre.
  assert (re_match log_pattern line = None) as Hnone.
  { destruct (re_match log_pattern line) as [m|] eqn:Hm; [|done].
    apply re_match_inv in Hm as (g1 & tot & g2 & g3 & g4 & rest & _ & -> & _).
    unfold format_line in Hpre.
    by rewrite !append_assoc, startswith_append in Hpre. }
  split; [done|]. intros acc. rewrite parse_line_entry.
  unfold line_entry. by rewrite Hnone.
Qed.

(** C10, as stated, fails: the line below is a record of well-formed
    fields followed by more text, and it matches, with a lone dot as its
    loss; the loop body raises ValueError on it and appends no entry, and
    so does [parse_log_file] on a log made of this line. *)
Lemma record_with_trailing_text_raises :
  log_dot_then_text = format_line "1" "2" "." "3" "4" +:+ " and more text" /\
  Fields.well_formed "1" "2" "." "3" "4" = true /\
  re_match log_pattern log_dot_then_text = Some ["1"; "."; "3"; "4"] /\
  parse_line 4300 log_dot_then_text ([], [], []) = Raise ValueError /\
  parse_log_file 4300 "run.txt" dot_then_text_world
    = (Raise ValueError, dot_then_text_world).
Proof. repeat split; vm_compute; reflexivity. Qed.

(** C10 (amended): the pattern is anchored at the start of the line only.
    A record of well-formed fields followed by any text matches, with the
    step, val_loss, train_time and step_avg fields as its groups, and the
    loop body does with it what it does with the record alone: when the
    groups convert it appends the entry of their numbers, and otherwise
    it raises.  A line that does not begin with the five characters of
    [step:], such as a record pushed right by a space, does not match and
    adds nothing. *)
Theorem match_anchored_at_start_only (lim : nat)
    (step total val_loss train_time step_avg extra : string) :
  Fields.well_formed step total val_loss train_time step_avg = true ->
  re_match log_pattern
    (format_line step total val_loss train_time step_avg +:+ extra)
    = Some [step; val_loss; train_time; step_avg] /\
  (forall acc,
     parse_line lim
       (format_line step total val_loss train_time step_avg +:+ extra) acc
     = parse_line lim (format_line step total val_loss train_time step_avg)
         acc) /\
  (forall acc,
     is_ok (parse_line lim
              (format_line step total val_loss train_time step_avg +:+ extra)
              acc)
     = convertible lim [step; val_loss; train_time; step_avg]) /\
  (convertible lim [step; val_loss; train_time; step_avg] = true ->
   exists n loss avg,
     py_int lim step = Ok n /\
     py_float val_loss = Ok loss /\
     py_float step_avg = Ok avg /\
     forall acc,
       parse_line lim
         (format_line step total val_loss train_time step_avg +:+ extra) acc
       = Ok (push (Some (n, loss, Float.mul avg (Float.of_Z n))) acc)) /\
  (forall line,
     Str.startswith "step:" line = false ->
     re_match log_pattern line = None /\
     forall acc, parse_line lim line acc = Ok acc) /\
  (forall c line, c <> "s"%char ->
     re_match log_pattern (String c line) = None /\
     forall acc, parse_line lim (String c line) acc = Ok acc).
Proof.
  intros Hwf.
  pose proof (re_match_format step total val_loss train_time step_avg extra
                Hwf) as Hext.
  pose proof (format_then_match step total val_loss train_time step_avg Hwf)
    as Hfmt.
  pose proof (line_entry_match lim _ _ Hext) as Hentry.
  split; [done|]. split; [by apply (trailing_text_ignored lim _ _ _ Hfmt)|].
  split; [|split; [|split]].
  - intros acc. rewrite parse_line_entry.
    destruct (convertible lim [step; val_loss; train_time; step_avg]).
    + by destruct Hentry as (n & loss & avg & _ & _ & _ & ->).
    + by destruct (line_entry lim _).
  - intros Hconv. rewrite Hconv in Hentry.
    destruct Hentry as (n & loss & avg & Hn & Hloss & Havg & Hentry).
    exists n, loss, avg. repeat split; try done.
    intros acc. by rewrite parse_line_entry, Hentry.
  - apply no_match_without_prefix.
  - intros c line Hc. apply no_match_without_prefix.
    change (Str.startswith "step:" (String c line))
      with (Ascii.eqb "s" c && Str.startswith "tep:" line).
    destruct (Ascii.eqb "s" c) eqn:E; [|done].
    apply Ascii.eqb_eq in E. congruence.
Qed.

Lemma match_anchored_at_start_only_witness :
  (Fields.well_formed "100" "1000" "3.45" "5000" "50.0" = true /\
   convertible 4300 ["100"; "3.45"; "5000"; "50.0"] = true) /\
  re_match log_pattern
    (format_line "100" "1000" "3.45" "5000" "50.0" +:+ " and more text")
    = Some ["100"; "3.45"; "5000"; "50.0"] /\
  (forall acc,
     parse_line 4300
       (format_line "100" "1000" "3.45" "5000" "50.0" +:+ " and more text") acc
     = parse_line 4300 (format_line "100" "1000" "3.45" "5000" "50.0") acc) /\
  (forall acc,
     is_ok (parse_line 4300
              (format_line "100" "1000" "3.45" "5000" "50.0"
               +:+ " and more text") acc)
     = convertible 4300 ["100"; "3.45"; "5000"; "50.0"]) /\
  (convertible 4300 ["100"; "3.45"; "5000"; "50.0"] = true ->
   exists n loss avg,
     py_int 4300 "100" = Ok n /\
     py_float "3.45" = Ok loss /\
     py_float "50.0" = Ok avg /\
     forall acc,
       parse_line 4300
         (format_line "100" "1000" "3.45" "5000" "50.0" +:+ " and more text")
         acc
       = Ok (push (Some (n, loss, Float.mul avg (Float.of_Z n))) acc)) /\
  (forall line,
     Str.startswith "step:" line = false ->
     re_match log_pattern line = None /\
     forall acc, parse_line 4300 line acc = Ok acc) /\
  (forall c line, c <> "s"%char ->
     re_match log_pattern (String c line) = None /\
     forall acc, parse_line 4300 (String c line) acc = Ok acc).
Proof.
  split; [split; vm_compute; reflexivity|].
  apply (match_anchored_at_start_only 4300 "100" "1000" "3.45" "5000" "50.0"
           " and more text").
  vm_compute. reflexivity.
Defined.

(** The record with text after it adds the entry of the record. *)
Example trailing_text_entry_appended :
  convertible 4300 ["100"; "3.45"; "5000"; "50.0"] = true /\
  parse_line 4300
    (format_line "100" "1000" "3.45" "5000" "50.0" +:+ " and more text")
    ([], [], [])
  = Ok ([100], [float_literal "3.45"], [Float.of_Z 5000]).
Proof. split; vm_compute; reflexivity. Qed.

Example leading_space_does_not_match :
  re_match log_pattern
    " step:100/1000 val_loss:3.45 train_time:5000ms step_avg:50.0ms" = None.
Proof. vm_compute. reflexivity. Qed.

Example trailing_text_still_matches :
  re_match log_pattern
    "step:100/1000 val_loss:3.45 train_time:5000ms step_avg:50.0ms and more"
  = Some ["100"; "3.45"; "5000"; "50.0"].
Proof. vm_compute. reflexivity. Qed.

(** ** Paths and directories *)

Lemma ancestors_go_shorter (pre rest a : string) :
  a ∈ ancestors_go pre rest ->
  (String.length a < String.length pre + String.length rest)%nat.
Proof.
  revert pre. induction rest as [|c rest IH]; intros pre; cbn.
  - by intros ?%elem_of_nil.
  - intros Ha.
    assert (a = pre \/ a ∈ ancestors_go (pre +:+ String c "") rest) as [->|Hin].
    { destruct (_ && _ && _); [|by right].
      apply elem_of_cons in Ha as [->|Ha]; [by left|by right]. }
    + lia.
    + apply IH in Hin. rewrite length_append in Hin. cbn in Hin. lia.
Qed.

(** A directory above [name] has a shorter path than [name]. *)
Lemma ancestors_shorter (name a : string) :
  a ∈ ancestors name -> (String.length a < String.length name)%nat.
Proof. intros Ha%ancestors_go_shorter. cbn in Ha. lia. Qed.

(** Joining a relative file name to a directory gives a longer path that
    ends with the name. *)
Lemma os_path_join_relative (d name : string) :
  Str.startswith "/" name = false ->
  exists sep, os_path_join d name = d +:+ sep +:+ name.
Proof.
  intros Hrel. unfold os_path_join. rewrite Hrel.
  destruct (negb (Str.nonempty d) || Str.endswith "/" d).
  - by exists "".
  - by exists "/".
Qed.

Lemma image_paths_longer (output_dir : option string) :
  (String.length (default "plots" output_dir)
     < String.length (steps_path output_dir))%nat /\
  (String.length (default "plots" output_dir)
     < String.length (time_path output_dir))%nat.
Proof.
  unfold steps_path, time_path. split.
  - destruct (os_path_join_relative (default "plots" output_dir)
                "validation_vs_steps.png") as [sep ->]; [done|].
    rewrite !length_append. cbn. lia.
  - destruct (os_path_join_relative (default "plots" output_dir)
                "validation_vs_time.png") as [sep ->]; [done|].
    rewrite !length_append. cbn. lia.
Qed.

(** The two images have different paths. *)
Lemma image_paths_differ (output_dir : option string) :
  steps_path output_dir <> time_path output_dir.
Proof.
  unfold steps_path, time_path, os_path_join.
  change (Str.startswith "/" "validation_vs_steps.png") with false.
  change (Str.startswith "/" "validation_vs_time.png") with false.
  cbn iota.
  destruct (negb (Str.nonempty _) || Str.endswith "/" _);
    intros H; repeat apply (inj (String.app _)) in H; discriminate.
Qed.

Lemma image_paths_not_dirs (output_dir : option string) (a : string) :
  a ∈ ancestors (default "plots" output_dir) ++ [default "plots" output_dir] ->
  a <> steps_path output_dir /\ a <> time_path output_dir.
Proof.
  intros Ha. destruct (image_paths_longer output_dir) as [H1 H2].
  assert (String.length a <= String.length (default "plots" output_dir))%nat
    as Hlen.
  { apply elem_of_app in Ha as [Ha%ancestors_shorter|Ha%list_elem_of_singleton];
      [lia|by subst]. }
  split; intros ->; lia.
Qed.

Lemma mkdir_parents_ok (names : list string) (f f1 : filesystem) :
  mkdir_parents names f = Ok f1 ->
  Forall (fun a => f1 !! a = Some Dir) names /\
  forall k, f1 !! k = f !! k \/
            (k ∈ names /\ f !! k = None /\ f1 !! k = Some Dir).
Proof.
  revert f. induction names as [|name names IH]; intros f; cbn.
  - intros [= <-]. split; [done|]. by left.
  - destruct (f !! name) as [[]|] eqn:Hname; [|done..|].
    + intros [Hall Hk]%IH. split.
      * constructor; [|done].
        destruct (Hk name) as [->|(_ & ? & _)]; congruence.
      * intros k. destruct (Hk k) as [?|(? & ? & ?)]; [by left|right].
        split; [by apply elem_of_cons; right|done].
    + intros [Hall Hk]%IH.
      assert (f1 !! name = Some Dir) as Hdir.
      { destruct (Hk name) as [->|(_ & E & _)];
          [by rewrite lookup_insert_eq|by rewrite lookup_insert_eq in E]. }
      split; [by constructor|].
      intros k. destruct (decide (k = name)) as [->|Hne].
      * right. split; [by apply elem_of_cons; left|done].
      * destruct (Hk k) as [E|(Hin & E & E1)];
          rewrite lookup_insert_ne in E by done; [by left|right].
        split; [by apply elem_of_cons; right|done].
Qed.

Lemma mkdir_parents_ready (names : list string) (f : filesystem) :
  Forall (fun a => f !! a = Some Dir) names -> mkdir_parents names f = Ok f.
Proof.
  induction 1 as [|name names Hname _ IH]; [done|]. cbn. by rewrite Hname.
Qed.

(** A successful [os.makedirs] leaves the figures alone, leaves the
    directory and those above it in place, and changes the file system only
    by new directories, at the path and above it. *)
Lemma os_makedirs_ok (name : string) (w w1 : world) :
  os_makedirs name true w = (Ok tt, w1) ->
  Str.nonempty name = true /\
  figures w1 = figures w /\
  dirs_ready name (fs w1) /\
  forall k, fs w1 !! k = fs w !! k \/
            (k ∈ ancestors name ++ [name] /\
             fs w !! k = None /\ fs w1 !! k = Some Dir).
Proof.
  unfold os_makedirs, dirs_ready.
  destruct (Str.nonempty name); [|done]. cbn [negb].
  destruct (mkdir_parents (ancestors name) (fs w)) as [f1|] eqn:Hparents;
    [|done].
  apply mkdir_parents_ok in Hparents as [Hall Hk].
  unfold mkdir_step.
  destruct (f1 !! name) as [[]|] eqn:Hname; [|done..|].
  - intros [= <-]. cbn. repeat split.
    + apply Forall_app. split; [done|]. by constructor.
    + intros k. destruct (Hk k) as [?|(? & ? & ?)]; [by left|right].
      split; [by apply elem_of_app; left|done].
  - intros [= <-]. cbn. repeat split.
    + apply Forall_app. split.
      * eapply Forall_impl; [exact Hall|]. cbn. intros a Ha.
        rewrite lookup_insert_ne; [done|]. intros <-. congruence.
      * constructor; [|done]. by rewrite lookup_insert_eq.
    + intros k. destruct (decide (k = name)) as [->|Hne].
      * right. rewrite lookup_insert_eq.
        split; [by apply elem_of_app; right; apply list_elem_of_singleton|].
        split; [|done]. destruct (Hk name) as [E|(_ & E & _)]; congruence.
      * rewrite lookup_insert_ne by done.
        destruct (Hk k) as [?|(? & ? & ?)]; [by left|right].
        split; [by apply elem_of_app; left|done].
Qed.

(** [os.makedirs] on a directory that is in place, with those above it,
    succeeds and changes nothing. *)
Lemma os_makedirs_ready (name : string) (w : world) :
  Str.nonempty name = true ->
  dirs_ready name (fs w) ->
  os_makedirs name true w = (Ok tt, w).
Proof.
  unfold os_makedirs, dirs_ready. intros -> [Hall Hname]%Forall_app.
  cbn [negb]. rewrite (mkdir_parents_ready _ _ Hall).
  apply Forall_cons in Hname as [Hname _].
  unfold mkdir_step. rewrite Hname. by destruct w.
Qed.

(** ** The renderer *)

Section Renderer.

Variable lim : nat.

Lemma mbind_unfold {A B : Type} (m : M A) (k : A -> M B) (w : world) :
  mbind m k w =
    match m w with
    | (Ok a, w') => k a w'
    | (Raise e, w') => (Raise e, w')
    end.
Proof. done. Qed.

(** [parse_log_file] reads the file system and changes nothing. *)
Lemma parse_log_file_pure (filename : string) (w : world) :
  parse_log_file lim filename w = (read_series lim (fs w) filename, w).
Proof. done. Qed.

Lemma plt_draw_current (c : call) (f : filesystem) (fig : figure)
    (figs : list figure) :
  plt_draw c (World f (fig :: figs)) =
    (Ok tt, World f (Figure (figsize fig) (calls fig ++ [c]) :: figs)).
Proof. done. Qed.

(** The loop of the first chart: one line per pair, in order, as long as
    the files parse. *)
Lemma steps_loop (pairs : list (string * string)) (f : filesystem)
    (fig : figure) (figs : list figure) :
  match parse_all lim f pairs.*1 with
  | Ok ss =>
      for_each pairs (fun '(log_file, label) =>
        let! (steps, losses, _) := parse_log_file lim log_file in
        plt_draw (Plot (Ints steps) losses label 2))
        (World f (fig :: figs))
      = (Ok tt,
         World f (Figure (figsize fig)
                    (calls fig ++ map steps_plot (zip pairs.*2 ss)) :: figs))
  | Raise e =>
      exists w',
        for_each pairs (fun '(log_file, label) =>
          let! (steps, losses, _) := parse_log_file lim log_file in
          plt_draw (Plot (Ints steps) losses label 2))
          (World f (fig :: figs))
        = (Raise e, w')
  end.
Proof.
  revert fig. induction pairs as [|[log_file label] rest IH]; intros fig.
  - cbn. rewrite List.app_nil_r. by destruct fig.
  - cbn [fmap list_fmap parse_all fst snd for_each].
    rewrite !mbind_unfold, parse_log_file_pure. cbn [fs].
    destruct (read_series lim f log_file) as [[[steps losses] times]|e];
      cbn [bind]; [|by eexists].
    rewrite plt_draw_current.
    specialize (IH (Figure (figsize fig)
                      (calls fig ++ [Plot (Ints steps) losses label 2]))).
    destruct (parse_all lim f rest.*1) as [ss|e]; cbn [bind].
    + rewrite IH. cbn. by rewrite <- List.app_assoc.
    + destruct IH as [w' IH]. rewrite IH. by eexists.
Qed.

(** The loop of the second chart. *)
Lemma time_loop (pairs : list (string * string)) (f : filesystem)
    (fig : figure) (figs : list figure) :
  match parse_all lim f pairs.*1 with
  | Ok ss =>
      for_each pairs (fun '(log_file, label) =>
        let! (_, losses, times) := parse_log_file lim log_file in
        let times := np_divide times (1000 * 60 * 60) in
        plt_draw (Plot (Floats times) losses label 2))
        (World f (fig :: figs))
      = (Ok tt,
         World f (Figure (figsize fig)
                    (calls fig ++ map time_plot (zip pairs.*2 ss)) :: figs))
  | Raise e =>
      exists w',
        for_each pairs (fun '(log_file, label) =>
          let! (_, losses, times) := parse_log_file lim log_file in
          let times := np_divide times (1000 * 60 * 60) in
          plt_draw (Plot (Floats times) losses label 2))
          (World f (fig :: figs))
        = (Raise e, w')
  end.
Proof.
  revert fig. induction pairs as [|[log_file label] rest IH]; intros fig.
  - cbn. rewrite List.app_nil_r. by destruct fig.
  - cbn [fmap list_fmap parse_all fst snd for_each].
    rewrite !mbind_unfold, parse_log_file_pure. cbn [fs].
    destruct (read_series lim f log_file) as [[[steps losses] times]|e];
      cbn [bind]; [|by eexists].
    rewrite plt_draw_current.
    specialize (IH (Figure (figsize fig)
      (calls fig ++
         [Plot (Floats (np_divide times (1000 * 60 * 60))) losses label 2]))).
    destruct (parse_all lim f rest.*1) as [ss|e]; cbn [bind].
    + etrans; [exact IH|]. cbn. by rewrite <- List.app_assoc.
    + destruct IH as [w' IH]. exists w'. exact IH.
Qed.

Lemma plt_savefig_current (path : string) (dpi : Z) (bbox : string)
    (f : filesystem) (fig : figure) (figs : list figure) :
  plt_savefig path dpi bbox (World f (fig :: figs)) =
    if writable path f
    then (Ok tt, World (<[path := ImageFile (Image fig dpi bbox)]> f)
                   (fig :: figs))
    else (Raise IsADirectoryError, World f (fig :: figs)).
Proof.
  unfold plt_savefig, writable. cbn [fs figures].
  by destruct (f !! path) as [[]|].
Qed.

(** The outcome of a run, step by step: the directory is made, the files
    are parsed and the first image saved, the files are parsed again and
    the second image saved; the first step that fails ends the run with
    its exception. *)
Lemma create_plots_run (log_files labels : list string)
    (output_dir : option string) (w : world) :
  match os_makedirs (default "plots" output_dir) true w with
  | (Raise e, _) =>
      exists w', create_plots lim log_files labels output_dir w = (Raise e, w')
  | (Ok _, w1) =>
      match parse_all lim (fs w1) (zip log_files labels).*1 with
      | Raise e =>
          exists w',
            create_plots lim log_files labels output_dir w = (Raise e, w')
      | Ok ss1 =>
          if writable (steps_path output_dir) (fs w1) then
            let f2 :=
              <[steps_path output_dir :=
                  ImageFile (steps_image (zip log_files labels).*2 ss1)]>
                (fs w1) in
            match parse_all lim f2 (zip log_files labels).*1 with
            | Raise e =>
                exists w',
                  create_plots lim log_files labels output_dir w
                  = (Raise e, w')
            | Ok ss2 =>
                if writable (time_path output_dir) f2 then
                  create_plots lim log_files labels output_dir w =
                    (Ok tt,
                     World
                       (<[time_path output_dir :=
                            ImageFile
                              (time_image (zip log_files labels).*2 ss2)]> f2)
                       (figures w1))
                else
                  exists w',
                    create_plots lim log_files labels output_dir w
                    = (Raise IsADirectoryError, w')
            end
          else
            exists w',
              create_plots lim log_files labels output_dir w
              = (Raise IsADirectoryError, w')
      end
  end.
Proof.
  unfold create_plots, steps_image, time_image, steps_decoration,
    time_decoration.
  cbn zeta. rewrite mbind_unfold.
  destruct (os_makedirs (default "plots" output_dir) true w)
    as [[[]|e] [f1 figs1]]; [|by eexists].
  rewrite mbind_unfold. cbn [plt_figure fs figures]. rewrite mbind_unfold.
  pose proof (steps_loop (zip log_files labels) f1
                (Figure (Some (8, 6)) []) figs1) as Hloop.
  destruct (parse_all lim f1 (zip log_files labels).*1) as [ss1|e].
  2:{ destruct Hloop as [w' ->]. by eexists. }
  rewrite Hloop. clear Hloop.
  do 7 (rewrite mbind_unfold, plt_draw_current).
  rewrite mbind_unfold, plt_savefig_current. cbn [figsize calls].
  rewrite <- !List.app_assoc. cbn [app].
  fold (steps_path output_dir).
  destruct (writable (steps_path output_dir) f1); [|by eexists].
  rewrite mbind_unfold. cbn [plt_close fs figures tail].
  rewrite mbind_unfold. cbn [plt_figure fs figures]. rewrite mbind_unfold.
  match goal with
  | |- context [parse_all lim ?f2 _] =>
      pose proof (time_loop (zip log_files labels) f2
                    (Figure (Some (8, 6)) []) figs1) as Hloop;
      cbn zeta in Hloop;
      destruct (parse_all lim f2 (zip log_files labels).*1) as [ss2|e]
  end.
  2:{ destruct Hloop as [w' ->]. by eexists. }
  rewrite Hloop. clear Hloop.
  do 7 (rewrite mbind_unfold, plt_draw_current).
  rewrite mbind_unfold, plt_savefig_current. cbn [figsize calls fs].
  rewrite <- !List.app_assoc. cbn [app].
  fold (time_path output_dir).
  match goal with
  | |- context [writable (time_path output_dir) ?f2] =>
      destruct (writable (time_path output_dir) f2); [done|by eexists]
  end.
Qed.

(** A run that returns went through all five steps. *)
Lemma create_plots_ok_inv (log_files labels : list string)
    (output_dir : option string) (w w' : world) :
  create_plots lim log_files labels output_dir w = (Ok tt, w') ->
  exists w1 ss1 ss2,
    os_makedirs (default "plots" output_dir) true w = (Ok tt, w1) /\
    parse_all lim (fs w1) (zip log_files labels).*1 = Ok ss1 /\
    writable (steps_path output_dir) (fs w1) = true /\
    parse_all lim
      (<[steps_path output_dir :=
           ImageFile (steps_image (zip log_files labels).*2 ss1)]> (fs w1))
      (zip log_files labels).*1 = Ok ss2 /\
    writable (time_path output_dir)
      (<[steps_path output_dir :=
           ImageFile (steps_image (zip log_files labels).*2 ss1)]> (fs w1))
      = true /\
    w' = World
           (<[time_path output_dir :=
                ImageFile (time_image (zip log_files labels).*2 ss2)]>
              (<[steps_path output_dir :=
                   ImageFile (steps_image (zip log_files labels).*2 ss1)]>
                 (fs w1)))
           (figures w1).
Proof.
  intros Hrun.
  pose proof (create_plots_run log_files labels output_dir w) as H.
  destruct (os_makedirs (default "plots" output_dir) true w)
    as [[[]|e] w1]; [|destruct H as [? H]; congruence].
  destruct (parse_all lim (fs w1) (zip log_files labels).*1) as [ss1|e]
    eqn:Hp1; [|destruct H as [? H]; congruence].
  destruct (writable (steps_path output_dir) (fs w1)) eqn:Hw1;
    [|destruct H as [? H]; congruence].
  cbn zeta in H.
  match type of H with
  | match parse_all lim ?f2 _ with _ => _ end =>
      destruct (parse_all lim f2 (zip log_files labels).*1) as [ss2|e]
        eqn:Hp2; [|destruct H as [? H]; congruence];
      destruct (writable (time_path output_dir) f2) eqn:Hw2;
        [|destruct H as [? H]; congruence]
  end.
  exists w1, ss1, ss2. repeat split; try done. congruence.
Qed.

Lemma read_series_ext (f1 f2 : filesystem) (filename : string) :
  f1 !! filename = f2 !! filename ->
  read_series lim f1 filename = read_series lim f2 filename.
Proof.
  unfold read_series, parse_log_file, read_text. cbn. by intros ->.
Qed.

Lemma read_series_ok_text (f : filesystem) (filename : string) :
  is_ok (read_series lim f filename) = true ->
  exists text, f !! filename = Some (TextFile text).
Proof.
  unfold read_series, parse_log_file, read_text. cbn.
  destruct (f !! filename) as [[|text|]|]; try done. by exists text.
Qed.

Lemma parse_all_ext (f1 f2 : filesystem) (files : list string) :
  Forall (fun x => f1 !! x = f2 !! x) files ->
  parse_all lim f1 files = parse_all lim f2 files.
Proof.
  induction 1 as [|x files Hx _ IH]; [done|]. cbn [parse_all].
  by rewrite (read_series_ext f1 f2 x Hx), IH.
Qed.

Lemma parse_all_ok (f : filesystem) (files : list string) :
  forallb (fun x => is_ok (read_series lim f x)) files = true ->
  exists ss, parse_all lim f files = Ok ss.
Proof.
  induction files as [|x files IH]; cbn [parse_all forallb]; [by exists []|].
  intros [Hx [ss ->]%IH]%andb_true_iff.
  destruct (read_series lim f x) as [s|]; [|done]. by eexists.
Qed.


End Renderer.




Lemma plots_of_time (l : list (string * series)) :
  plots (map time_plot l ++ time_decoration) = map time_plot l.
Proof.
  unfold plots. rewrite List.filter_app. cbn. rewrite List.app_nil_r.
  induction l as [|[label [[steps losses] times]] l IH]; [done|].
  cbn. by rewrite IH.
Qed.

Lemma axhlines_of_steps (l : list (string * series)) :
  axhlines (map steps_plot l ++ steps_decoration) =
    [Axhline (float_literal "3.28") "grey" ":" (Some 2) "Threshold"].
Proof.
  unfold axhlines. rewrite List.filter_app.
  induction l as [|[label [[steps losses] times]] l IH]; [done|].
  exact IH.
Qed.

Lemma axhlines_of_time (l : list (string * series)) :
  axhlines (map time_plot l ++ time_decoration) =
    [Axhline (float_literal "3.28") "r" ":" None "Threshold"].
Proof.
  unfold axhlines. rewrite List.filter_app.
  induction l as [|[label [[steps losses] times]] l IH]; [done|].
  exact IH.
Qed.

(** ** Claims about create_plots *)

Section RendererClaims.

Variable lim : nat.


End RendererClaims.




(** The two sample logs give series of lengths 3 and 5. *)
Example sample_series_lengths :
  match parse_all 4300 (fs sample_world) ["a.txt"; "b.txt"] with
  | Ok ss => map (fun s : series => length s.1.1) ss
  | Raise _ => []
  end = [3%nat; 5%nat].
Proof. vm_compute. reflexivity. Qed.

(** C7: after a run that returned, a second run on the same output
    directory finds the directory (and those above it) in place, so making
    it again succeeds and changes nothing; when the log files of the second
    run parse, to the series [ss], it returns; the two paths that held the
    images of the first run now hold the charts of [ss] under the labels
    of the second run; and the set of paths and everything else are as
    they were. *)
Theorem create_plots_again_overwrites (lim : nat)
    (log_files labels log_files' labels' : list string)
    (output_dir : option string) (w w1 : world) :
  create_plots lim log_files labels output_dir w = (Ok tt, w1) ->
  forallb (fun x => is_ok (read_series lim (fs w1) x))
    (zip log_files' labels').*1 = true ->
  os_makedirs (default "plots" output_dir) true w1 = (Ok tt, w1) /\
  exists w2 old1 old2 ss,
    create_plots lim log_files' labels' output_dir w1 = (Ok tt, w2) /\
    parse_all lim (fs w1) (zip log_files' labels').*1 = Ok ss /\
    fs w1 !! steps_path output_dir
      = Some (ImageFile (steps_image (zip log_files labels).*2 old1)) /\
    fs w1 !! time_path output_dir
      = Some (ImageFile (time_image (zip log_files labels).*2 old2)) /\
    fs w2 !! steps_path output_dir
      = Some (ImageFile (steps_image (zip log_files' labels').*2 ss)) /\
    fs w2 !! time_path output_dir
      = Some (ImageFile (time_image (zip log_files' labels').*2 ss)) /\
    (forall k, k <> steps_path output_dir -> k <> time_path output_dir ->
       fs w2 !! k = fs w1 !! k) /\
    dom (fs w2) = dom (fs w1) /\
    figures w2 = figures w1.
Proof.
  intros Hrun Hfiles.
  pose proof (image_paths_differ output_dir) as Hne.
  apply create_plots_ok_inv in Hrun
    as (wm & ss1 & ss2 & Hmk & _ & _ & _ & _ & ->).
  apply os_makedirs_ok in Hmk as (Hnonempty & _ & Hready & _).
  cbn [fs figures] in *.
  set (f1 := <[time_path output_dir:=ImageFile
                 (time_image (zip log_files labels).*2 ss2)]>
               (<[steps_path output_dir:=ImageFile
                    (steps_image (zip log_files labels).*2 ss1)]> (fs wm)))
    in *.
  assert (f1 !! steps_path output_dir
          = Some (ImageFile (steps_image (zip log_files labels).*2 ss1)))
    as Hold1 by (by unfold f1; rewrite lookup_insert_ne, lookup_insert_eq).
  assert (f1 !! time_path output_dir
          = Some (ImageFile (time_image (zip log_files labels).*2 ss2)))
    as Hold2 by (by unfold f1; rewrite lookup_insert_eq).
  assert (dirs_ready (default "plots" output_dir) f1) as Hready1.
  { unfold dirs_ready in *. apply Forall_forall. intros a Ha.
    destruct (image_paths_not_dirs output_dir a Ha) as [? ?].
    rewrite Forall_forall in Hready. unfold f1.
    rewrite !lookup_insert_ne by done. by apply Hready. }
  assert (os_makedirs (default "plots" output_dir) true
            (World f1 (figures wm)) = (Ok tt, World f1 (figures wm))) as Hmk2
    by (by apply os_makedirs_ready).
  split; [done|].
  destruct (parse_all_ok lim f1 _ Hfiles) as [ss Hss].
  assert (forall img,
    parse_all lim (<[steps_path output_dir := ImageFile img]> f1)
      (zip log_files' labels').*1 = Ok ss) as Hss2.
  { intros img. rewrite <- Hss. apply parse_all_ext.
    apply Forall_forall. intros x Hx%list_elem_of_In.
    rewrite forallb_forall in Hfiles. apply Hfiles in Hx.
    destruct (read_series_ok_text lim _ _ Hx) as [text Htext].
    rewrite lookup_insert_ne; [done|]. intros <-. congruence. }
  pose proof (create_plots_run lim log_files' labels' output_dir
                (World f1 (figures wm))) as Hrun.
  rewrite Hmk2 in Hrun. cbn [fs figures] in Hrun. rewrite Hss in Hrun.
  assert (writable (steps_path output_dir) f1 = true) as Hw1
    by (by unfold writable; rewrite Hold1).
  rewrite Hw1 in Hrun. cbn zeta in Hrun. rewrite Hss2 in Hrun.
  assert (forall img, writable (time_path output_dir)
            (<[steps_path output_dir := ImageFile img]> f1) = true) as Hw2.
  { intros img. unfold writable. by rewrite lookup_insert_ne, Hold2. }
  rewrite Hw2 in Hrun.
  eexists _, ss1, ss2, ss. split; [exact Hrun|]. cbn [fs figures].
  split; [exact Hss|].
  split; [exact Hold1|]. split; [exact Hold2|].
  split; [by rewrite lookup_insert_ne, lookup_insert_eq|].
  split; [by rewrite lookup_insert_eq|].
  split; [by intros k ? ?; rewrite !lookup_insert_ne|].
  split; [|done].
  rewrite !dom_insert_L.
  assert (steps_path output_dir ∈ dom f1) by (by apply elem_of_dom; eexists).
  assert (time_path output_dir ∈ dom f1) by (by apply elem_of_dom; eexists).
  apply set_eq. intros k. rewrite !elem_of_union, !elem_of_singleton.
  split; [by intros [->|[->|?]]|by intros ?; right; right].
Qed.

Lemma create_plots_again_overwrites_witness :
  (create_plots 4300 ["a.txt"; "b.txt"] ["A"; "B"] None sample_world
     = (Ok tt, sample_world_after) /\
   forallb (fun x => is_ok (read_series 4300 (fs sample_world_after) x))
     (zip ["b.txt"; "a.txt"] ["B"; "A"]).*1 = true) /\
  os_makedirs (default "plots" None) true sample_world_after
    = (Ok tt, sample_world_after) /\
  exists w2 old1 old2 ss,
    create_plots 4300 ["b.txt"; "a.txt"] ["B"; "A"] None sample_world_after
      = (Ok tt, w2) /\
    parse_all 4300 (fs sample_world_after)
      (zip ["b.txt"; "a.txt"] ["B"; "A"]).*1 = Ok ss /\
    fs sample_world_after !! steps_path None
      = Some (ImageFile
                (steps_image (zip ["a.txt"; "b.txt"] ["A"; "B"]).*2 old1)) /\
    fs sample_world_after !! time_path None
      = Some (ImageFile
                (time_image (zip ["a.txt"; "b.txt"] ["A"; "B"]).*2 old2)) /\
    fs w2 !! steps_path None
      = Some (ImageFile
                (steps_image (zip ["b.txt"; "a.txt"] ["B"; "A"]).*2 ss)) /\
    fs w2 !! time_path None
      = Some (ImageFile
                (time_image (zip ["b.txt"; "a.txt"] ["B"; "A"]).*2 ss)) /\
    (forall k, k <> steps_path None -> k <> time_path None ->
       fs w2 !! k = fs sample_world_after !! k) /\
    dom (fs w2) = dom (fs sample_world_after) /\
    figures w2 = figures sample_world_after.
Proof.
  split.
  - split; vm_compute; reflexivity.
  - apply (create_plots_again_overwrites 4300 ["a.txt"; "b.txt"] ["A"; "B"]
             ["b.txt"; "a.txt"] ["B"; "A"] None sample_world
             sample_world_after);
      vm_compute; reflexivity.
Defined.

(** In the sample, the second run puts other images where the first
    were. *)
Example second_run_replaces_images :
  let w2 := (create_plots 4300 ["b.txt"; "a.txt"] ["B"; "A"] None
               sample_world_after).2 in
  fs w2 !! steps_path None <> fs sample_world_after !! steps_path None /\
  fs w2 !! time_path None <> fs sample_world_after !! time_path None.
Proof. split; vm_compute; discriminate. Qed.



(** C6: the second image is written last, over the file system [f2] in
    which the second pass parsed the files; its lines are, pair by pair,
    the losses the parser returned there, unchanged, against its times each
    divided by 1000 * 60 * 60 = 3,600,000. *)
Theorem time_axis_in_hours (lim : nat) (log_files labels : list string)
    (output_dir : option string) (w w' : world) :
  create_plots lim log_files labels output_dir w = (Ok tt, w') ->
  exists img f2 ss,
    fs w' = <[time_path output_dir := ImageFile img]> f2 /\
    parse_all lim f2 (zip log_files labels).*1 = Ok ss /\
    plots (calls (img_figure img)) =
      map (fun '(label, (_, losses, times)) =>
             Plot (Floats (map (fun t => Float.div t (Float.of_Z 3600000)) times))
               losses label 2)
        (zip (zip log_files labels).*2 ss) /\
    1000 * 60 * 60 = 3600000.
Proof.
  intros (wm & ss1 & ss2 & _ & _ & _ & Hp2 & _ & ->)%create_plots_ok_inv.
  eexists _, _, ss2. cbn [fs].
  split; [done|]. split; [exact Hp2|].
  split; [|done].
  unfold time_image. cbn [img_figure calls]. rewrite plots_of_time.
  apply map_ext. by intros [label [[steps losses] times]].
Qed.

Lemma time_axis_in_hours_witness :
  create_plots 4300 ["a.txt"; "b.txt"] ["A"; "B"] None sample_world
    = (Ok tt, sample_world_after) /\
  exists img f2 ss,
    fs sample_world_after = <[time_path None := ImageFile img]> f2 /\
    parse_all 4300 f2 (zip ["a.txt"; "b.txt"] ["A"; "B"]).*1 = Ok ss /\
    plots (calls (img_figure img)) =
      map (fun '(label, (_, losses, times)) =>
             Plot (Floats (map (fun t => Float.div t (Float.of_Z 3600000)) times))
               losses label 2)
        (zip (zip ["a.txt"; "b.txt"] ["A"; "B"]).*2 ss) /\
    1000 * 60 * 60 = 3600000.
Proof.
  split; [vm_compute; reflexivity|].
  apply (time_axis_in_hours 4300 ["a.txt"; "b.txt"] ["A"; "B"] None
           sample_world sample_world_after).
  vm_compute. reflexivity.
Defined.

(** The divisor is the float 3,600,000 exactly, and a time of 5000 ms is
    plotted at 5000 / 3600000 hours. *)
Example hours_of_5000_ms :
  Float.of_Z (1000 * 60 * 60) = S754_finite false (3600000 * 2 ^ 31) (-31) /\
  np_divide [Float.of_Z 5000] (1000 * 60 * 60)
    = [S754_finite false 6405119470038039 (-62)].
Proof. split; vm_compute; reflexivity. Qed.

(** C8: each image holds exactly one horizontal line, and the two are at
    the same loss, the float of the literal 3.28, under the same label;
    they differ in colour (grey, red) and in line width (2, the default). *)
Theorem threshold_lines_agree (lim : nat) (log_files labels : list string)
    (output_dir : option string) (w w' : world) :
  create_plots lim log_files labels output_dir w = (Ok tt, w') ->
  exists img1 img2 y,
    fs w' !! steps_path output_dir = Some (ImageFile img1) /\
    fs w' !! time_path output_dir = Some (ImageFile img2) /\
    axhlines (calls (img_figure img1))
      = [Axhline y "grey" ":" (Some 2) "Threshold"] /\
    axhlines (calls (img_figure img2))
      = [Axhline y "r" ":" None "Threshold"] /\
    y = float_literal "3.28".
Proof.
  intros (wm & ss1 & ss2 & _ & _ & _ & _ & _ & ->)%create_plots_ok_inv.
  pose proof (image_paths_differ output_dir) as Hne.
  eexists _, _, _. cbn [fs].
  split; [by rewrite lookup_insert_ne, lookup_insert_eq|].
  split; [by rewrite lookup_insert_eq|].
  unfold steps_image, time_image. cbn [img_figure calls].
  by rewrite axhlines_of_steps, axhlines_of_time.
Qed.

Lemma threshold_lines_agree_witness :
  create_plots 4300 ["a.txt"; "b.txt"] ["A"; "B"] None sample_world
    = (Ok tt, sample_world_after) /\
  exists img1 img2 y,
    fs sample_world_after !! steps_path None = Some (ImageFile img1) /\
    fs sample_world_after !! time_path None = Some (ImageFile img2) /\
    axhlines (calls (img_figure img1))
      = [Axhline y "grey" ":" (Some 2) "Threshold"] /\
    axhlines (calls (img_figure img2))
      = [Axhline y "r" ":" None "Threshold"] /\
    y = float_literal "3.28".
Proof.
  split; [vm_compute; reflexivity|].
  apply (threshold_lines_agree 4300 ["a.txt"; "b.txt"] ["A"; "B"] None
           sample_world sample_world_after).
  vm_compute. reflexivity.
Defined.

Example threshold_value :
  float_literal "3.28" = S754_finite false 7385903388887613 (-51).
Proof. vm_compute. reflexivity. Qed.

(** * Further properties of the code *)

(** ** parse_log_file: when it returns, and what *)

Lemma line_entry_raises (lim : nat) (line : string) (e : exn) :
  line_entry lim line = Raise e -> e = ValueError \/ e = OverflowError.
Proof.
  unfold line_entry.
  destruct (re_match log_pattern line) as [m|]; [|done].
  unfold py_int.
  destruct (Str.nonempty (group m 1) && Str.all is_digit (group m 1));
    [|intros [= <-]; by left].
  destruct (_ && _ && _); [intros [= <-]; by left|]. cbn [bind].
  pose proof (py_float_raises (group m 2)) as R2.
  pose proof (py_float_raises (group m 4)) as R4.
  destruct (py_float (group m 2)) as [loss|e2];
    [|intros [= <-]; left; by apply R2]. cbn [bind].
  destruct (py_float (group m 4)) as [avg|e4];
    [|intros [= <-]; left; by apply R4]. cbn [bind].
  unfold float_mul_int, int_as_float.
  destruct (Float.is_infinite _); [|done]. intros [= <-]. by right.
Qed.

Lemma line_entry_ok (lim : nat) (line : string) :
  is_ok (line_entry lim line) = line_ok lim line.
Proof.
  unfold line_ok.
  destruct (re_match log_pattern line) as [m|] eqn:Hm.
  - pose proof (line_entry_match lim line m Hm) as H.
    destruct (convertible lim m); [|done].
    by destruct H as (? & ? & ? & _ & _ & _ & ->).
  - unfold line_entry. by rewrite Hm.
Qed.

Lemma entries_ok (lim : nat) (lines : list string) :
  is_ok (entries lim lines) = forallb (line_ok lim) lines.
Proof.
  induction lines as [|line rest IH]; [done|]. cbn [entries forallb].
  rewrite <- line_entry_ok, <- IH.
  destruct (line_entry lim line) as [e|]; [|done].
  by destruct (entries lim rest).
Qed.

Lemma entries_raises (lim : nat) (lines : list string) (e : exn) :
  entries lim lines = Raise e -> e = ValueError \/ e = OverflowError.
Proof.
  induction lines as [|line rest IH]; [done|]. cbn [entries].
  destruct (line_entry lim line) as [x|e'] eqn:Hline.
  - cbn [bind]. destruct (entries lim rest) as [es|e'']; [done|].
    intros [= <-]. by apply IH.
  - intros [= <-]. by apply line_entry_raises in Hline.
Qed.

(** X1: for a file that can be read, [parse_log_file] returns exactly
    when every line is harmless (it does not match, or its groups
    convert); when it raises, the exception is a ValueError or an
    OverflowError, and in either case the world is left as it was. *)
Theorem parse_log_file_returns_iff (lim : nat) (filename text : string)
    (w : world) :
  fs w !! filename = Some (TextFile text) ->
  is_ok (parse_log_file lim filename w).1
    = forallb (line_ok lim) (splitlines text) /\
  (parse_log_file lim filename w).2 = w /\
  forall e, (parse_log_file lim filename w).1 = Raise e ->
            e = ValueError \/ e = OverflowError.
Proof.
  intros Hfile. unfold parse_log_file, read_text. rewrite Hfile.
  cbn [bind fst snd]. rewrite parse_lines_entries.
  split; [|split; [done|]].
  - rewrite <- entries_ok. by destruct (entries lim (splitlines text)).
  - intros e. destruct (entries lim (splitlines text)) as [es|e'] eqn:Hes;
      [done|].
    intros [= <-]. by apply entries_raises in Hes.
Qed.

Lemma parse_log_file_returns_iff_witness :
  fs two_dots_world !! "run.txt" = Some (TextFile log_two_dots) /\
  is_ok (parse_log_file 4300 "run.txt" two_dots_world).1
    = forallb (line_ok 4300) (splitlines log_two_dots) /\
  (parse_log_file 4300 "run.txt" two_dots_world).2 = two_dots_world /\
  forall e, (parse_log_file 4300 "run.txt" two_dots_world).1 = Raise e ->
            e = ValueError \/ e = OverflowError.
Proof.
  split; [vm_compute; reflexivity|].
  apply (parse_log_file_returns_iff 4300 "run.txt" log_two_dots two_dots_world).
  vm_compute. reflexivity.
Defined.

Lemma entries_length (lim : nat) (ms : list string)
    (es : list (Z * float * float)) :
  forallb matches ms = true ->
  entries lim ms = Ok es -> length es = length ms.
Proof.
  revert es. induction ms as [|line rest IH]; intros es; cbn [entries forallb].
  - by intros _ [= <-].
  - intros [Hm Hrest]%andb_true_iff. unfold matches in Hm.
    destruct (re_match log_pattern line) as [m|] eqn:Hre; [|done].
    pose proof (line_entry_match lim line m Hre) as H.
    destruct (convertible lim m).
    + destruct H as (step & loss & avg & _ & _ & _ & ->). cbn [bind].
      destruct (entries lim rest) as [es'|]; [|done]. cbn [bind].
      intros [= <-]. cbn. by rewrite (IH es').
    + by destruct (line_entry lim line).
Qed.

(** X2: whenever [parse_log_file] returns, the file was a text file, the
    world is unchanged, and the three lists have one and the same length:
    the number of lines of the file that match the pattern. *)
Theorem parse_log_file_lists_parallel (lim : nat) (filename : string)
    (w w' : world) (steps : list Z) (losses times : list float) :
  parse_log_file lim filename w = (Ok (steps, losses, times), w') ->
  w' = w /\
  exists text,
    fs w !! filename = Some (TextFile text) /\
    length steps = length (List.filter matches (splitlines text)) /\
    length losses = length steps /\
    length times = length steps.
Proof.
  unfold parse_log_file, read_text.
  destruct (fs w !! filename) as [[|text|]|]; try done.
  cbn [bind]. rewrite parse_lines_entries, entries_filter.
  destruct (entries lim (List.filter matches (splitlines text))) as [es|]
    eqn:Hes; [|done].
  cbn. intros [= <- <- <- <-]. split; [done|]. exists text.
  apply entries_length in Hes; [|apply filter_all_match].
  by rewrite !length_map.
Qed.

Lemma parse_log_file_lists_parallel_witness :
  parse_log_file 4300 "a.txt" sample_world
    = (Ok ([0; 100; 200],
           [float_literal "10.8"; float_literal "3.45"; float_literal "3.40"],
           [Float.of_Z 0; Float.of_Z 5000; Float.of_Z 9000]), sample_world) /\
  sample_world = sample_world /\
  exists text,
    fs sample_world !! "a.txt" = Some (TextFile text) /\
    length [0; 100; 200] = length (List.filter matches (splitlines text)) /\
    length [float_literal "10.8"; float_literal "3.45"; float_literal "3.40"]
      = length [0; 100; 200] /\
    length [Float.of_Z 0; Float.of_Z 5000; Float.of_Z 9000]
      = length [0; 100; 200].
Proof.
  split; [vm_compute; reflexivity|].
  apply (parse_log_file_lists_parallel 4300 "a.txt" sample_world sample_world).
  vm_compute. reflexivity.
Defined.

(** ** parse_log_file: the numbers it returns *)

Lemma digit_value_range (c : ascii) :
  is_digit c = true -> 0 <= digit_value c <= 9.
Proof.
  destruct c as [[] [] [] [] [] [] [] []]; cbn; try done;
    intros _; vm_compute; split; discriminate.
Qed.

Lemma digits_value_nonneg (s : string) (acc : Z) :
  Str.all is_digit s = true -> 0 <= acc -> 0 <= digits_value acc s.
Proof.
  revert acc. induction s as [|c s IH]; intros acc; cbn [Str.all digits_value];
    [done|].
  intros [Hc Hs]%andb_true_iff Hacc. apply IH; [done|].
  pose proof (digit_value_range c Hc). lia.
Qed.

Lemma py_int_nonneg (lim : nat) (s : string) (z : Z) :
  py_int lim s = Ok z -> 0 <= z.
Proof.
  unfold py_int.
  destruct (Str.nonempty s && Str.all is_digit s) eqn:Hs; [|done].
  apply andb_true_iff in Hs as [_ Hs].
  destruct (_ && _ && _); [done|]. intros [= <-].
  by apply digits_value_nonneg.
Qed.

(** Rounding keeps a mantissa that is not negative so. *)
Lemma shr_1_nonneg (mrs : shr_record) :
  0 <= shr_m mrs -> 0 <= shr_m (shr_1 mrs).
Proof. destruct mrs as [[|[p|p|]|p] r s0]; cbn; lia. Qed.

Lemma iter_pos_nonneg (p : positive) (mrs : shr_record) :
  0 <= shr_m mrs -> 0 <= shr_m (SpecFloat.iter_pos shr_1 p mrs).
Proof.
  revert mrs. induction p as [p IH|p IH|]; intros mrs H; cbn.
  - by apply IH, IH, shr_1_nonneg.
  - by apply IH, IH.
  - by apply shr_1_nonneg.
Qed.

Lemma shr_fexp_nonneg (m e : Z) (l : location) :
  0 <= m -> 0 <= shr_m (shr_fexp Float.prec Float.emax m e l).1.
Proof.
  intros Hm. unfold shr_fexp, shr.
  assert (0 <= shr_m (shr_record_of_loc m l)) as H0
    by (by destruct l as [|[]]).
  destruct (_ - e) as [|p|p]; cbn [fst]; [done| |done].
  by apply iter_pos_nonneg.
Qed.

Lemma round_nearest_even_nonneg (m : Z) (l : location) :
  0 <= m -> 0 <= round_nearest_even m l.
Proof.
  intros Hm. destruct l as [|[]]; cbn; [done| |done|lia].
  destruct (Z.even m); lia.
Qed.

Lemma binary_round_aux_nonneg (m e : Z) (l : location) :
  0 <= m ->
  nonneg_float (binary_round_aux Float.prec Float.emax false m e l) = true.
Proof.
  intros Hm. unfold binary_round_aux.
  pose proof (shr_fexp_nonneg m e l Hm) as H1.
  destruct (shr_fexp Float.prec Float.emax m e l) as [mrs' e'].
  cbn [fst] in H1.
  pose proof (shr_fexp_nonneg
                (round_nearest_even (shr_m mrs') (loc_of_shr_record mrs'))
                e' loc_Exact (round_nearest_even_nonneg _ _ H1)) as H2.
  destruct (shr_fexp Float.prec Float.emax _ e' loc_Exact) as [mrs'' e''].
  cbn [fst] in H2.
  destruct (shr_m mrs'') as [|p|p]; [done| |lia].
  by destruct (e'' <=? _).
Qed.

Lemma of_decimal_nonneg (m : Z) (k : nat) :
  nonneg_float (Float.of_decimal m k) = true.
Proof.
  unfold Float.of_decimal. destruct m as [|p|p]; [done| |done].
  unfold SFdiv_core_binary.
  set (m' := match _ - _ with Z0 => _ | Zpos _ => _ | Zneg _ => _ end).
  assert (0 <= m') as Hm'.
  { unfold m'. destruct (_ - _); [done| |done]. by apply Z.shiftl_nonneg. }
  assert (0 < 10 ^ Z.of_nat k) as Hd by (apply Z.pow_pos_nonneg; lia).
  pose proof (Z.div_pos m' (10 ^ Z.of_nat k) Hm' Hd) as Hq.
  unfold Z.div in Hq.
  destruct (Z.div_eucl m' (10 ^ Z.of_nat k)) as [q r]. cbn [fst] in Hq.
  by apply binary_round_aux_nonneg.
Qed.

Lemma py_float_nonneg (s : string) (x : float) :
  py_float s = Ok x -> nonneg_float x = true.
Proof.
  unfold py_float. destruct (split_dot s) as [a b].
  destruct (_ && _ && _); [|done]. intros [= <-]. apply of_decimal_nonneg.
Qed.

Lemma of_Z_nonneg (z : Z) : 0 <= z -> nonneg_float (Float.of_Z z) = true.
Proof.
  intros Hz. unfold Float.of_Z, binary_normalize.
  destruct z as [|p|p]; [done| |lia].
  unfold binary_round. destruct (shl_align _ _ _) as [mz ez].
  by apply binary_round_aux_nonneg.
Qed.

Lemma mul_nonneg (x y : float) :
  nonneg_float x = true -> nonneg_float y = true ->
  nonneg_float (Float.mul x y) = true \/ Float.mul x y = S754_nan.
Proof.
  destruct x as [[]|[]| |[] mx ex], y as [[]|[]| |[] my ey]; cbn;
    try done; intros _ _; try (by left); try (by right).
  left. by apply binary_round_aux_nonneg.
Qed.

Lemma line_entry_nonneg (lim : nat) (line : string) (step : Z)
    (loss t : float) :
  line_entry lim line = Ok (Some (step, loss, t)) ->
  0 <= step /\ nonneg_float loss = true /\
  (nonneg_float t = true \/ t = S754_nan).
Proof.
  unfold line_entry.
  destruct (re_match log_pattern line) as [m|]; [|done].
  destruct (py_int lim (group m 1)) as [z|] eqn:Hz; [|done]. cbn [bind].
  destruct (py_float (group m 2)) as [x|] eqn:Hx; [|done]. cbn [bind].
  destruct (py_float (group m 4)) as [a|] eqn:Ha; [|done]. cbn [bind].
  unfold float_mul_int, int_as_float.
  destruct (Float.is_infinite (Float.of_Z z)); [done|]. cbn [bind].
  intros [= <- <- <-].
  apply py_int_nonneg in Hz. apply py_float_nonneg in Hx, Ha.
  split; [done|]. split; [done|].
  apply mul_nonneg; [done|]. by apply of_Z_nonneg.
Qed.

Lemma entries_nonneg (lim : nat) (lines : list string)
    (es : list (Z * float * float)) :
  entries lim lines = Ok es ->
  Forall (fun e => 0 <= e.1.1 /\ nonneg_float e.1.2 = true /\
                   (nonneg_float e.2 = true \/ e.2 = S754_nan)) es.
Proof.
  revert es. induction lines as [|line rest IH]; intros es; cbn [entries].
  - by intros [= <-].
  - destruct (line_entry lim line) as [e|] eqn:Hline; [|done]. cbn [bind].
    destruct (entries lim rest) as [es'|]; [|done]. cbn [bind].
    intros [= <-]. specialize (IH es' eq_refl).
    destruct e as [[[step loss] t]|]; [|done].
    constructor; [|done]. by apply line_entry_nonneg in Hline.
Qed.

(** X3: the numbers [parse_log_file] returns carry no sign the pattern
    could not have read.  Every step is at least 0; every loss is a float
    with the sign bit clear, zero, finite or infinite but never a NaN;
    every time is such a float too, or a NaN (the product of an infinite
    average and step 0). *)
Theorem parse_log_file_nothing_negative (lim : nat) (filename : string)
    (w w' : world) (steps : list Z) (losses times : list float) :
  parse_log_file lim filename w = (Ok (steps, losses, times), w') ->
  Forall (fun step => 0 <= step) steps /\
  Forall (fun loss => nonneg_float loss = true) losses /\
  Forall (fun t => nonneg_float t = true \/ t = S754_nan) times.
Proof.
  unfold parse_log_file, read_text.
  destruct (fs w !! filename) as [[|text|]|]; try done.
  cbn [bind]. rewrite parse_lines_entries.
  destruct (entries lim (splitlines text)) as [es|] eqn:Hes; [|done].
  cbn. intros [= <- <- <- _].
  apply entries_nonneg in Hes.
  repeat split; apply Forall_forall; intros x Hx;
    apply list_elem_of_In, in_map_iff in Hx as (e & <- & He);
    rewrite Forall_forall in Hes; apply list_elem_of_In, Hes in He;
    tauto.
Qed.

Lemma parse_log_file_nothing_negative_witness :
  parse_log_file 4300 "a.txt" sample_world
    = (Ok ([0; 100; 200],
           [float_literal "10.8"; float_literal "3.45"; float_literal "3.40"],
           [Float.of_Z 0; Float.of_Z 5000; Float.of_Z 9000]), sample_world) /\
  Forall (fun step => 0 <= step) [0; 100; 200] /\
  Forall (fun loss => nonneg_float loss = true)
    [float_literal "10.8"; float_literal "3.45"; float_literal "3.40"] /\
  Forall (fun t => nonneg_float t = true \/ t = S754_nan)
    [Float.of_Z 0; Float.of_Z 5000; Float.of_Z 9000].
Proof.
  split; [vm_compute; reflexivity|].
  apply (parse_log_file_nothing_negative 4300 "a.txt" sample_world
           sample_world).
  vm_compute. reflexivity.
Defined.

(** A time that is a NaN: step 0 under an average of 400 digits. *)
Example nan_time :
  parse_line 4300
    (format_line "0" "1" "1" "1" (Str.repeat "9" 400)) ([], [], [])
  = Ok ([0], [Float.of_Z 1], [S754_nan]).
Proof. vm_compute. reflexivity. Qed.

(** ** parse_log_file: what the result depends on *)

(** X4: the total after the slash and the train_time field are matched
    and then ignored: two records that agree on step, val_loss and
    step_avg have the same effect on the three lists, whatever their
    totals, their train_time fields and the text after them. *)
Theorem total_and_train_time_unused (lim : nat)
    (step val_loss step_avg total total' train_time train_time' : string)
    (rest rest' : string) (acc : series) :
  Fields.well_formed step total val_loss train_time step_avg = true ->
  Fields.well_formed step total' val_loss train_time' step_avg = true ->
  parse_line lim
    (format_line step total val_loss train_time step_avg +:+ rest) acc
  = parse_line lim
      (format_line step total' val_loss train_time' step_avg +:+ rest') acc.
Proof.
  intros Hwf Hwf'. rewrite !parse_line_entry. unfold line_entry.
  by rewrite (re_match_format _ _ _ _ _ rest Hwf),
             (re_match_format _ _ _ _ _ rest' Hwf').
Qed.

Lemma total_and_train_time_unused_witness :
  (Fields.well_formed "100" "1000" "3.45" "5000" "50.0" = true /\
   Fields.well_formed "100" "7" "3.45" "1" "50.0" = true) /\
  parse_line 4300
    (format_line "100" "1000" "3.45" "5000" "50.0" +:+ "") ([], [], [])
  = parse_line 4300
      (format_line "100" "7" "3.45" "1" "50.0" +:+ " # note") ([], [], []).
Proof.
  split; [split; vm_compute; reflexivity|].
  apply (total_and_train_time_unused 4300 "100" "3.45" "50.0" "1000" "7"
           "5000" "1"); vm_compute; reflexivity.
Defined.

Lemma parse_lines_app (lim : nat) (l1 l2 : list string) (acc : series) :
  parse_lines lim (l1 ++ l2) acc =
    let* acc1 := parse_lines lim l1 acc in parse_lines lim l2 acc1.
Proof.
  revert acc. induction l1 as [|line l1 IH]; intros acc; [done|].
  cbn [app parse_lines]. destruct (parse_line lim line acc) as [acc'|]; [|done].
  cbn [bind]. apply IH.
Qed.

(** [splitlines], one character at a time. *)
Lemma splitlines_cons (c : ascii) (s : string) :
  splitlines (String c s) =
    if Ascii.eqb c "010" then String "010" "" :: splitlines s
    else if Ascii.eqb c "013" then String "010" "" :: splitlines (skip_lf s)
    else match splitlines s with
         | [] => [String c ""]
         | l :: ls => String c l :: ls
         end.
Proof.
  cbn [splitlines]. destruct (Ascii.eqb c "010"); [done|].
  destruct (Ascii.eqb c "013"); [|done].
  destruct s as [|c' s]; [done|].
  by destruct c' as [[] [] [] [] [] [] [] []].
Qed.

Lemma splitlines_nonempty (c : ascii) (s : string) :
  splitlines (String c s) <> [].
Proof.
  rewrite splitlines_cons.
  destruct (Ascii.eqb c "010"); [done|]. destruct (Ascii.eqb c "013"); [done|].
  by destruct (splitlines s).
Qed.

(** The lines of a text that ends a line, followed by more text, are the
    lines of the one and then of the other. *)
Lemma splitlines_after_newline (n : nat) (t1 t2 : string) :
  (String.length t1 <= n)%nat ->
  splitlines (t1 +:+ String "010" t2)
  = splitlines (t1 +:+ String "010" "") ++ splitlines t2.
Proof.
  revert t1. induction n as [|n IH]; intros t1 Hlen.
  - destruct t1; [|cbn in Hlen; lia].
    rewrite !append_nil_l, !splitlines_cons. done.
  - destruct t1 as [|c t1];
      [by rewrite !append_nil_l, !splitlines_cons|].
    cbn in Hlen. rewrite !append_cons, !(splitlines_cons c).
    destruct (Ascii.eqb c "010"); [by rewrite IH by lia|].
    destruct (Ascii.eqb c "013").
    + destruct t1 as [|c' t1];
        [by rewrite !append_nil_l; cbn [skip_lf Ascii.eqb]|].
      cbn in Hlen. rewrite !append_cons. cbn [skip_lf].
      destruct (Ascii.eqb c' "010").
      * by rewrite IH by lia.
      * rewrite <- !append_cons. rewrite IH by (cbn; lia). done.
    + rewrite IH by lia.
      destruct (splitlines (t1 +:+ String "010" "")) as [|l ls] eqn:E; [|done].
      exfalso. destruct t1 as [|c1 t1].
      * by rewrite append_nil_l in E.
      * rewrite append_cons in E. by apply splitlines_nonempty in E.
Qed.

(** X5: a log that grows keeps what it gave.  For a text [t1] closed by
    a newline and any text [t2] after it, parsing the whole is parsing
    [t1] and then [t2] with the lists so far: when both parts parse, the
    lists of the whole are those of [t1] followed by those of [t2], and
    an error in [t1] is the error of the whole. *)
Theorem parse_appended_text (lim : nat) (t1 t2 : string) (acc : series) :
  parse_lines lim (splitlines (t1 +:+ String "010" t2)) acc =
    let* acc1 := parse_lines lim (splitlines (t1 +:+ String "010" "")) acc in
    parse_lines lim (splitlines t2) acc1.
Proof.
  rewrite (splitlines_after_newline (String.length t1)) by done.
  apply parse_lines_app.
Qed.

Example parse_appended_text_example :
  parse_lines 4300 (splitlines log_three) ([], [], [])
  = Ok ([0; 100; 200],
        [float_literal "10.8"; float_literal "3.45"; float_literal "3.40"],
        [Float.of_Z 0; Float.of_Z 5000; Float.of_Z 9000]) /\
  parse_lines 4300 (splitlines (log_three +:+ log_five)) ([], [], [])
  = parse_lines 4300 (splitlines log_five)
      ([0; 100; 200],
       [float_literal "10.8"; float_literal "3.45"; float_literal "3.40"],
       [Float.of_Z 0; Float.of_Z 5000; Float.of_Z 9000]).
Proof. split; vm_compute; reflexivity. Qed.

Lemma to_crlf_lines (s : string) :
  Str.count is_cr s = 0%nat -> splitlines (to_crlf s) = splitlines s.
Proof.
  induction s as [|c s IH]; [done|]. cbn [Str.count to_crlf].
  unfold is_cr at 1. rewrite (splitlines_cons c s).
  destruct (Ascii.eqb c "013") eqn:Hcr; [done|]. cbn [Nat.add]. intros Hs.
  destruct (Ascii.eqb c "010") eqn:Hlf.
  - rewrite splitlines_cons. cbn [Ascii.eqb skip_lf]. cbn. by rewrite IH.
  - by rewrite splitlines_cons, Hlf, Hcr, IH.
Qed.

(** X6: the file is opened in text mode, so the line terminator does
    not matter: a file written with CR LF line ends parses to the very
    outcome of the same text written with LF. *)
Theorem parse_log_file_crlf (lim : nat) (filename text : string)
    (w wcrlf : world) :
  Str.count is_cr text = 0%nat ->
  fs w !! filename = Some (TextFile text) ->
  fs wcrlf !! filename = Some (TextFile (to_crlf text)) ->
  (parse_log_file lim filename wcrlf).1 = (parse_log_file lim filename w).1.
Proof.
  intros Hcr Hw Hwcrlf. unfold parse_log_file, read_text.
  rewrite Hw, Hwcrlf. cbn [bind fst]. by rewrite to_crlf_lines.
Qed.

Lemma parse_log_file_crlf_witness :
  (Str.count is_cr log_three = 0%nat /\
   fs sample_world !! "a.txt" = Some (TextFile log_three) /\
   fs (World {[ "a.txt" := TextFile (to_crlf log_three) ]} []) !! "a.txt"
     = Some (TextFile (to_crlf log_three))) /\
  (parse_log_file 4300 "a.txt"
     (World {[ "a.txt" := TextFile (to_crlf log_three) ]} [])).1
  = (parse_log_file 4300 "a.txt" sample_world).1.
Proof.
  split; [repeat split; vm_compute; reflexivity|].
  apply (parse_log_file_crlf 4300 "a.txt" log_three sample_world
           (World {[ "a.txt" := TextFile (to_crlf log_three) ]} []));
    vm_compute; reflexivity.
Defined.

(** ** create_plots: every outcome *)

Section RendererOutcomes.

Variable lim : nat.

(** A loop whose body leaves the file system and the figures under the
    current one alone does so as a whole, however it ends. *)
Lemma for_each_frame {A : Type} (body : A -> M unit) (f : filesystem)
    (figs : list figure) :
  (forall x fig r w',
     body x (World f (fig :: figs)) = (r, w') ->
     exists fig', w' = World f (fig' :: figs)) ->
  forall l fig r w',
    for_each l body (World f (fig :: figs)) = (r, w') ->
    exists fig', w' = World f (fig' :: figs).
Proof.
  intros Hbody l. induction l as [|x l IH]; intros fig r w'; cbn [for_each].
  - intros [= <- <-]. by eexists.
  - rewrite mbind_unfold.
    destruct (body x (World f (fig :: figs))) as [r0 w0] eqn:Hx.
    apply Hbody in Hx as [fig0 ->].
    destruct r0 as [[]|e]; [apply IH|].
    intros [= <- <-]. by eexists.
Qed.

Lemma steps_loop_raise (pairs : list (string * string)) (f : filesystem)
    (fig : figure) (figs : list figure) (e : exn) :
  parse_all lim f pairs.*1 = Raise e ->
  exists fig',
    for_each pairs (fun '(log_file, label) =>
      let! (steps, losses, _) := parse_log_file lim log_file in
      plt_draw (Plot (Ints steps) losses label 2))
      (World f (fig :: figs))
    = (Raise e, World f (fig' :: figs)).
Proof.
  intros Hparse. pose proof (steps_loop lim pairs f fig figs) as Hloop.
  rewrite Hparse in Hloop. destruct Hloop as [w' Hloop].
  pose proof Hloop as Hframe. apply for_each_frame in Hframe as [fig' ->].
  - by exists fig'.
  - intros [log_file label] fig0 r w0.
    rewrite mbind_unfold, parse_log_file_pure.
    destruct (read_series lim _ log_file) as [[[steps losses] times]|e0].
    + rewrite plt_draw_current. intros [= <- <-]. by eexists.
    + intros [= <- <-]. by eexists.
Qed.

Lemma time_loop_raise (pairs : list (string * string)) (f : filesystem)
    (fig : figure) (figs : list figure) (e : exn) :
  parse_all lim f pairs.*1 = Raise e ->
  exists fig',
    for_each pairs (fun '(log_file, label) =>
      let! (_, losses, times) := parse_log_file lim log_file in
      plt_draw (Plot (Floats (np_divide times (1000 * 60 * 60))) losses label 2))
      (World f (fig :: figs))
    = (Raise e, World f (fig' :: figs)).
Proof.
  intros Hparse. pose proof (time_loop lim pairs f fig figs) as Hloop.
  cbn zeta in Hloop.
  rewrite Hparse in Hloop. destruct Hloop as [w' Hloop].
  pose proof Hloop as Hframe. apply for_each_frame in Hframe as [fig' ->].
  - by exists fig'.
  - intros [log_file label] fig0 r w0.
    rewrite mbind_unfold, parse_log_file_pure.
    destruct (read_series lim _ log_file) as [[[steps losses] times]|e0].
    + rewrite plt_draw_current. intros [= <- <-]. by eexists.
    + intros [= <- <-]. by eexists.
Qed.

(** The outcome of a run in full: which exception ends it at which step,
    and the world it leaves behind. *)
Lemma create_plots_outcome (log_files labels : list string)
    (output_dir : option string) (w : world) :
  match os_makedirs (default "plots" output_dir) true w with
  | (Raise e, w1) =>
      create_plots lim log_files labels output_dir w = (Raise e, w1)
  | (Ok _, w1) =>
      match parse_all lim (fs w1) (zip log_files labels).*1 with
      | Raise e =>
          exists fig,
            create_plots lim log_files labels output_dir w
            = (Raise e, World (fs w1) (fig :: figures w1))
      | Ok ss1 =>
          if writable (steps_path output_dir) (fs w1) then
            let f2 :=
              <[steps_path output_dir :=
                  ImageFile (steps_image (zip log_files labels).*2 ss1)]>
                (fs w1) in
            match parse_all lim f2 (zip log_files labels).*1 with
            | Raise e =>
                exists fig,
                  create_plots lim log_files labels output_dir w
                  = (Raise e, World f2 (fig :: figures w1))
            | Ok ss2 =>
                if writable (time_path output_dir) f2 then
                  create_plots lim log_files labels output_dir w =
                    (Ok tt,
                     World
                       (<[time_path output_dir :=
                            ImageFile
                              (time_image (zip log_files labels).*2 ss2)]> f2)
                       (figures w1))
                else
                  exists fig,
                    create_plots lim log_files labels output_dir w
                    = (Raise IsADirectoryError, World f2 (fig :: figures w1))
            end
          else
            exists fig,
              create_plots lim log_files labels output_dir w
              = (Raise IsADirectoryError, World (fs w1) (fig :: figures w1))
      end
  end.
Proof.
  unfold create_plots. cbn zeta. rewrite mbind_unfold.
  destruct (os_makedirs (default "plots" output_dir) true w)
    as [[[]|e] [f1 figs1]]; [|done].
  rewrite mbind_unfold. cbn [plt_figure fs figures].
  rewrite mbind_unfold.
  destruct (parse_all lim f1 (zip log_files labels).*1) as [ss1|e] eqn:Hp1.
  2:{ destruct (steps_loop_raise (zip log_files labels) f1
                  (Figure (Some (8, 6)) []) figs1 e Hp1) as [fig' ->].
      by exists fig'. }
  pose proof (steps_loop lim (zip log_files labels) f1
                (Figure (Some (8, 6)) []) figs1) as Hloop.
  rewrite Hp1 in Hloop. rewrite Hloop. clear Hloop.
  do 7 (rewrite mbind_unfold, plt_draw_current).
  rewrite mbind_unfold, plt_savefig_current. cbn [figsize calls].
  rewrite <- !List.app_assoc. cbn [app].
  fold (steps_path output_dir). unfold steps_image, steps_decoration.
  destruct (writable (steps_path output_dir) f1); [|by eexists].
  rewrite mbind_unfold. cbn [plt_close fs figures tail].
  rewrite mbind_unfold. cbn [plt_figure fs figures]. rewrite mbind_unfold.
  match goal with
  | |- context [parse_all lim ?f2 _] =>
      destruct (parse_all lim f2 (zip log_files labels).*1) as [ss2|e] eqn:Hp2;
      [pose proof (time_loop lim (zip log_files labels) f2
                     (Figure (Some (8, 6)) []) figs1) as Hloop;
       cbn zeta in Hloop; rewrite Hp2 in Hloop
      |destruct (time_loop_raise (zip log_files labels) f2
                   (Figure (Some (8, 6)) []) figs1 e Hp2) as [fig' Hloop]]
  end.
  2:{ rewrite Hloop. by exists fig'. }
  rewrite Hloop. clear Hloop.
  do 7 (rewrite mbind_unfold, plt_draw_current).
  rewrite mbind_unfold, plt_savefig_current. cbn [figsize calls fs].
  rewrite <- !List.app_assoc. cbn [app].
  fold (time_path output_dir). unfold time_image, time_decoration.
  match goal with
  | |- context [writable (time_path output_dir) ?f2] =>
      destruct (writable (time_path output_dir) f2); [done|by eexists]
  end.
Qed.

End RendererOutcomes.

(** [os.makedirs], however it ends, leaves the figures alone and changes
    the file system by new directories only. *)
Lemma os_makedirs_any (name : string) (w w1 : world) (r : result unit) :
  os_makedirs name true w = (r, w1) ->
  figures w1 = figures w /\
  forall k, fs w1 !! k = fs w !! k \/
            (fs w !! k = None /\ fs w1 !! k = Some Dir).
Proof.
  unfold os_makedirs.
  destruct (negb (Str.nonempty name)); [intros [= <- <-]; by split; [|left]|].
  destruct (mkdir_parents (ancestors name) (fs w)) as [f1|e] eqn:Hparents;
    [|intros [= <- <-]; by split; [|left]].
  apply mkdir_parents_ok in Hparents as [_ Hk].
  assert (forall k, f1 !! k = fs w !! k \/
                    (fs w !! k = None /\ f1 !! k = Some Dir)) as Hk1.
  { intros k. destruct (Hk k) as [?|(_ & ? & ?)]; [by left|by right]. }
  unfold mkdir_step.
  destruct (f1 !! name) as [[]|] eqn:Hname; intros [= <- <-]; cbn [fs figures];
    (split; [done|]); try done.
  intros k. destruct (decide (k = name)) as [->|Hne].
  - right. rewrite lookup_insert_eq. split; [|done].
    destruct (Hk1 name) as [E|[E _]]; congruence.
  - rewrite lookup_insert_ne by done. apply Hk1.
Qed.

(** X7: no file but the two images is ever touched.  However the run
    ends, returning or raising at any step, every path other than the two
    image paths holds what it held before, or a directory where there was
    nothing: no log file is changed or removed. *)
Theorem create_plots_touches_images_only (lim : nat)
    (log_files labels : list string) (output_dir : option string)
    (w w' : world) (r : result unit) :
  create_plots lim log_files labels output_dir w = (r, w') ->
  fs_grows (steps_path output_dir) (time_path output_dir) (fs w) (fs w').
Proof.
  intros Hrun k Hk1 Hk2.
  pose proof (create_plots_outcome lim log_files labels output_dir w) as H.
  destruct (os_makedirs (default "plots" output_dir) true w) as [r1 w1]
    eqn:Hmk.
  apply os_makedirs_any in Hmk as [_ Hgrow].
  assert (forall f', (f' = fs w1 \/
            (exists i1, f' = <[steps_path output_dir := i1]> (fs w1)) \/
            (exists i1 i2, f' = <[time_path output_dir := i2]>
                                  (<[steps_path output_dir := i1]> (fs w1)))) ->
          f' !! k = fs w !! k \/ (fs w !! k = None /\ f' !! k = Some Dir))
    as Hcase.
  { intros f' [->|[[i1 ->]|(i1 & i2 & ->)]];
      rewrite ?lookup_insert_ne by done; apply Hgrow. }
  destruct r1 as [[]|e]; [|rewrite H in Hrun; injection Hrun as <- <-;
                           apply Hcase; by left].
  destruct (parse_all lim (fs w1) _) as [ss1|e].
  2:{ destruct H as [fig H]. rewrite H in Hrun. injection Hrun as <- <-.
      apply Hcase. by left. }
  destruct (writable (steps_path output_dir) (fs w1)).
  2:{ destruct H as [fig H]. rewrite H in Hrun. injection Hrun as <- <-.
      apply Hcase. by left. }
  cbn zeta in H.
  destruct (parse_all lim _ _) as [ss2|e].
  2:{ destruct H as [fig H]. rewrite H in Hrun. injection Hrun as <- <-.
      apply Hcase. right. left. by eexists. }
  destruct (writable (time_path output_dir) _).
  2:{ destruct H as [fig H]. rewrite H in Hrun. injection Hrun as <- <-.
      apply Hcase. right. left. by eexists. }
  rewrite H in Hrun. injection Hrun as <- <-.
  apply Hcase. right. right. by eexists _, _.
Qed.

Lemma create_plots_touches_images_only_witness :
  create_plots 4300 ["a.txt"; "missing.txt"] ["A"; "B"] None sample_world
    = (Raise FileNotFoundError,
       (create_plots 4300 ["a.txt"; "missing.txt"] ["A"; "B"] None
          sample_world).2) /\
  fs_grows (steps_path None) (time_path None) (fs sample_world)
    (fs (create_plots 4300 ["a.txt"; "missing.txt"] ["A"; "B"] None
           sample_world).2).
Proof.
  split; [vm_compute; reflexivity|].
  apply (create_plots_touches_images_only 4300 ["a.txt"; "missing.txt"]
           ["A"; "B"] None sample_world _ (Raise FileNotFoundError)).
  vm_compute. reflexivity.
Defined.

(** X8: the figure is closed on the success path only.  A run that
    returns leaves the open figures as it found them; a run that raises
    after the output directory was made leaves the figure it was drawing
    open on top of them; a run that cannot make the directory ends there,
    with the outcome of [os.makedirs], before any figure is opened. *)
Theorem create_plots_figures (lim : nat) (log_files labels : list string)
    (output_dir : option string) (w w' : world) (r : result unit) :
  create_plots lim log_files labels output_dir w = (r, w') ->
  match r, (os_makedirs (default "plots" output_dir) true w).1 with
  | Ok _, _ => figures w' = figures w
  | Raise _, Ok _ => exists fig, figures w' = fig :: figures w
  | Raise e, Raise e' =>
      e = e' /\ w' = (os_makedirs (default "plots" output_dir) true w).2 /\
      figures w' = figures w
  end.
Proof.
  intros Hrun.
  pose proof (create_plots_outcome lim log_files labels output_dir w) as H.
  destruct (os_makedirs (default "plots" output_dir) true w) as [r1 w1]
    eqn:Hmk.
  apply os_makedirs_any in Hmk as [Hfigs _]. cbn [fst snd].
  destruct r1 as [[]|e1].
  2:{ rewrite H in Hrun. injection Hrun as <- <-. done. }
  destruct (parse_all lim (fs w1) _) as [ss1|e].
  2:{ destruct H as [fig H]. rewrite H in Hrun. injection Hrun as <- <-.
      exists fig. cbn. by rewrite Hfigs. }
  destruct (writable (steps_path output_dir) (fs w1)).
  2:{ destruct H as [fig H]. rewrite H in Hrun. injection Hrun as <- <-.
      exists fig. cbn. by rewrite Hfigs. }
  cbn zeta in H.
  destruct (parse_all lim _ _) as [ss2|e].
  2:{ destruct H as [fig H]. rewrite H in Hrun. injection Hrun as <- <-.
      exists fig. cbn. by rewrite Hfigs. }
  destruct (writable (time_path output_dir) _).
  2:{ destruct H as [fig H]. rewrite H in Hrun. injection Hrun as <- <-.
      exists fig. cbn. by rewrite Hfigs. }
  rewrite H in Hrun. injection Hrun as <- <-. done.
Qed.

Lemma create_plots_figures_witness :
  create_plots 4300 ["a.txt"; "missing.txt"] ["A"; "B"] None sample_world
    = (Raise FileNotFoundError,
       (create_plots 4300 ["a.txt"; "missing.txt"] ["A"; "B"] None
          sample_world).2) /\
  exists fig,
    figures (create_plots 4300 ["a.txt"; "missing.txt"] ["A"; "B"] None
               sample_world).2 = fig :: figures sample_world.
Proof.
  split; [vm_compute; reflexivity|].
  apply (create_plots_figures 4300 ["a.txt"; "missing.txt"] ["A"; "B"] None
           sample_world _ (Raise FileNotFoundError)).
  vm_compute. reflexivity.
Defined.

Lemma parse_all_first_failure (lim : nat) (f : filesystem)
    (good rest : list string) (bad : string) (e : exn) :
  forallb (fun x => is_ok (read_series lim f x)) good = true ->
  read_series lim f bad = Raise e ->
  parse_all lim f (good ++ bad :: rest) = Raise e.
Proof.
  intros Hgood Hbad. induction good as [|x good IH]; cbn [app parse_all].
  - by rewrite Hbad.
  - cbn [forallb] in Hgood. apply andb_true_iff in Hgood as [Hx Hgood].
    destruct (read_series lim f x) as [sx|]; [|done]. cbn [bind].
    by rewrite (IH Hgood).
Qed.

(** X9: a log file that does not parse stops the run in the first pass.
    When the directory has been made and, among the paired files, [bad]
    is the first whose parse raises, the run raises that exception; the
    file system is as [os.makedirs] left it, so neither image has been
    written, not even for the files before [bad]; and the figure of the
    first chart is left open. *)
Theorem create_plots_stops_at_first_bad_file (lim : nat)
    (log_files labels good rest : list string) (bad : string)
    (output_dir : option string) (w w1 : world) (e : exn) :
  os_makedirs (default "plots" output_dir) true w = (Ok tt, w1) ->
  (zip log_files labels).*1 = good ++ bad :: rest ->
  forallb (fun x => is_ok (read_series lim (fs w1) x)) good = true ->
  read_series lim (fs w1) bad = Raise e ->
  exists fig,
    create_plots lim log_files labels output_dir w
    = (Raise e, World (fs w1) (fig :: figures w)).
Proof.
  intros Hmk Hfiles Hgood Hbad.
  pose proof (create_plots_outcome lim log_files labels output_dir w) as H.
  rewrite Hmk, Hfiles in H.
  rewrite (parse_all_first_failure lim _ good rest bad e Hgood Hbad) in H.
  apply os_makedirs_any in Hmk as [<- _]. exact H.
Qed.

Lemma create_plots_stops_at_first_bad_file_witness :
  (os_makedirs (default "plots" None) true sample_world
     = (Ok tt, sample_world_dirs) /\
   (zip ["a.txt"; "missing.txt"; "b.txt"] ["A"; "M"; "B"]).*1
     = ["a.txt"] ++ "missing.txt" :: ["b.txt"] /\
   forallb (fun x => is_ok (read_series 4300 (fs sample_world_dirs) x))
     ["a.txt"] = true /\
   read_series 4300 (fs sample_world_dirs) "missing.txt"
     = Raise FileNotFoundError) /\
  exists fig,
    create_plots 4300 ["a.txt"; "missing.txt"; "b.txt"] ["A"; "M"; "B"] None
      sample_world
    = (Raise FileNotFoundError,
       World (fs sample_world_dirs) (fig :: figures sample_world)).
Proof.
  split; [repeat split; vm_compute; reflexivity|].
  apply (create_plots_stops_at_first_bad_file 4300
           ["a.txt"; "missing.txt"; "b.txt"] ["A"; "M"; "B"] ["a.txt"]
           ["b.txt"] "missing.txt" None sample_world sample_world_dirs
           FileNotFoundError);
    vm_compute; reflexivity.
Defined.

Lemma parse_all_read (lim : nat) (f : filesystem) (files : list string)
    (ss : list series) :
  parse_all lim f files = Ok ss ->
  Forall2 (fun x s => read_series lim f x = Ok s) files ss.
Proof.
  revert ss. induction files as [|x files IH]; intros ss; cbn [parse_all].
  - intros [= <-]. constructor.
  - destruct (read_series lim f x) as [s|] eqn:Hx; [|done]. cbn [bind].
    destruct (parse_all lim f files) as [ss'|]; [|done]. cbn [bind].
    intros [= <-]. constructor; [done|]. by apply IH.
Qed.

(** Files that parse once an image has been put at [p] gave the same
    series before. *)
Lemma reads_agree (lim : nat) (f : filesystem) (p : string) (img : image)
    (files : list string) (ss1 ss2 : list series) :
  Forall2 (fun x s => read_series lim f x = Ok s) files ss1 ->
  Forall2 (fun x s => read_series lim (<[p := ImageFile img]> f) x = Ok s)
    files ss2 ->
  ss2 = ss1.
Proof.
  intros H1. revert ss2.
  induction H1 as [|x s files ss Hx _ IH]; intros ss2 H2;
    inversion H2 as [|x' s2 files' ss2' Hx2 Hrest2]; subst; [done|].
  f_equal; [|by apply IH].
  assert (is_ok (read_series lim (<[p := ImageFile img]> f) x) = true) as Hok
    by (by rewrite Hx2).
  destruct (read_series_ok_text lim _ _ Hok) as [text Htext].
  destruct (decide (x = p)) as [->|Hne].
  - by rewrite lookup_insert_eq in Htext.
  - rewrite (read_series_ext lim _ f x) in Hx2 by (by rewrite lookup_insert_ne).
    congruence.
Qed.

(** X10: the two charts of a run that returns show the same data.  Each
    file is parsed once per chart, and both times the result is the
    series the file gave in the world the run started from; the charts
    are drawn from that one list of series, in the order of the paired
    files, under the same labels. *)
Theorem create_plots_charts_agree (lim : nat) (log_files labels : list string)
    (output_dir : option string) (w w' : world) :
  create_plots lim log_files labels output_dir w = (Ok tt, w') ->
  exists ss,
    Forall2 (fun x s => read_series lim (fs w) x = Ok s)
      (zip log_files labels).*1 ss /\
    fs w' !! steps_path output_dir
      = Some (ImageFile (steps_image (zip log_files labels).*2 ss)) /\
    fs w' !! time_path output_dir
      = Some (ImageFile (time_image (zip log_files labels).*2 ss)).
Proof.
  intros (w1 & ss1 & ss2 & Hmk & Hp1 & _ & Hp2 & _ & ->)%create_plots_ok_inv.
  pose proof (image_paths_differ output_dir) as Hne.
  apply os_makedirs_any in Hmk as [_ Hgrow].
  apply parse_all_read in Hp1, Hp2.
  assert (ss2 = ss1) as -> by (by eapply reads_agree).
  exists ss1. cbn [fs]. split.
  - eapply Forall2_impl; [exact Hp1|]. cbn beta. intros x s Hx.
    rewrite <- Hx. apply read_series_ext.
    assert (is_ok (read_series lim (fs w1) x) = true) as Hok
      by (by rewrite Hx).
    destruct (read_series_ok_text lim _ _ Hok) as [text Htext].
    destruct (Hgrow x) as [?|[_ ?]]; [done|congruence].
  - split; [by rewrite lookup_insert_ne, lookup_insert_eq|].
    by rewrite lookup_insert_eq.
Qed.

Lemma create_plots_charts_agree_witness :
  create_plots 4300 ["a.txt"; "b.txt"] ["A"; "B"] None sample_world
    = (Ok tt, sample_world_after) /\
  exists ss,
    Forall2 (fun x s => read_series 4300 (fs sample_world) x = Ok s)
      (zip ["a.txt"; "b.txt"] ["A"; "B"]).*1 ss /\
    fs sample_world_after !! steps_path None
      = Some (ImageFile (steps_image (zip ["a.txt"; "b.txt"] ["A"; "B"]).*2 ss)) /\
    fs sample_world_after !! time_path None
      = Some (ImageFile (time_image (zip ["a.txt"; "b.txt"] ["A"; "B"]).*2 ss)).
Proof.
  split; [vm_compute; reflexivity|].
  apply (create_plots_charts_agree 4300 ["a.txt"; "b.txt"] ["A"; "B"] None
           sample_world sample_world_after).
  vm_compute. reflexivity.
Defined.

Lemma read_series_parallel (lim : nat) (f : filesystem) (x : string)
    (steps : list Z) (losses times : list float) :
  read_series lim f x = Ok (steps, losses, times) ->
  length losses = length steps /\ length times = length steps.
Proof.
  intros Hx.
  destruct (parse_log_file_lists_parallel lim x (World f []) (World f [])
              steps losses times) as (_ & text & _ & _ & ? & ?); [|done].
  rewrite parse_log_file_pure. cbn [fs]. by rewrite Hx.
Qed.

Lemma plotted_lengths_agree (lim : nat) (f : filesystem)
    (files labels : list string) (ss : list series) :
  Forall2 (fun x s => read_series lim f x = Ok s) files ss ->
  forallb plot_lengths_agree (map steps_plot (zip labels ss)) = true /\
  forallb plot_lengths_agree (map time_plot (zip labels ss)) = true.
Proof.
  intros H. revert labels.
  induction H as [|x [[steps losses] times] files ss Hx _ IH];
    intros [|label labels]; try done.
  destruct (IH labels) as [IH1 IH2].
  apply read_series_parallel in Hx as [Hl Ht].
  cbn [zip zip_with map forallb steps_plot time_plot plot_lengths_agree].
  unfold np_divide. rewrite length_map, IH1, IH2, Hl, Ht, !Nat.eqb_refl.
  done.
Qed.

(** X11: every line a returning run has drawn has as many x values as y
    values, in both charts, which is what [plot] requires of its
    arguments: the three lists of a series are parallel, and the division
    keeps the length of the times. *)
Theorem create_plots_lines_have_equal_lengths (lim : nat)
    (log_files labels : list string) (output_dir : option string)
    (w w' : world) :
  create_plots lim log_files labels output_dir w = (Ok tt, w') ->
  exists img1 img2,
    fs w' !! steps_path output_dir = Some (ImageFile img1) /\
    fs w' !! time_path output_dir = Some (ImageFile img2) /\
    forallb plot_lengths_agree (calls (img_figure img1)) = true /\
    forallb plot_lengths_agree (calls (img_figure img2)) = true.
Proof.
  intros Hrun.
  destruct (create_plots_charts_agree lim _ _ _ _ _ Hrun)
    as (ss & Hread & H1 & H2).
  eexists _, _. split; [exact H1|]. split; [exact H2|].
  destruct (plotted_lengths_agree lim _ _ (zip log_files labels).*2 ss Hread)
    as [Hs Ht].
  unfold steps_image, time_image. cbn [img_figure calls].
  rewrite !forallb_app, Hs, Ht. done.
Qed.

Lemma create_plots_lines_have_equal_lengths_witness :
  create_plots 4300 ["a.txt"; "b.txt"] ["A"; "B"] None sample_world
    = (Ok tt, sample_world_after) /\
  exists img1 img2,
    fs sample_world_after !! steps_path None = Some (ImageFile img1) /\
    fs sample_world_after !! time_path None = Some (ImageFile img2) /\
    forallb plot_lengths_agree (calls (img_figure img1)) = true /\
    forallb plot_lengths_agree (calls (img_figure img2)) = true.
Proof.
  split; [vm_compute; reflexivity|].
  apply (create_plots_lines_have_equal_lengths 4300 ["a.txt"; "b.txt"]
           ["A"; "B"] None sample_world sample_world_after).
  vm_compute. reflexivity.
Defined.

(** X12: with nothing to pair, nothing is read.  When the list of files
    or the list of labels is empty, and the directory can be made and the
    image paths written, the run returns whatever files the other list
    names, existing or not, and each image holds its threshold line and
    decoration and no plotted line. *)
Theorem create_plots_nothing_to_pair (lim : nat)
    (log_files labels : list string) (output_dir : option string)
    (w w1 : world) :
  log_files = [] \/ labels = [] ->
  os_makedirs (default "plots" output_dir) true w = (Ok tt, w1) ->
  writable (steps_path output_dir) (fs w1) = true ->
  writable (time_path output_dir) (fs w1) = true ->
  create_plots lim log_files labels output_dir w =
    (Ok tt,
     World
       (<[time_path output_dir :=
            ImageFile (Image (Figure (Some (8, 6)) time_decoration) 300 "tight")]>
          (<[steps_path output_dir :=
               ImageFile
                 (Image (Figure (Some (8, 6)) steps_decoration) 300 "tight")]>
             (fs w1)))
       (figures w)).
Proof.
  intros Hempty Hmk Hw1 Hw2.
  assert (zip log_files labels = []) as Hzip.
  { destruct Hempty as [-> | ->]; [done|]. by destruct log_files. }
  pose proof (create_plots_outcome lim log_files labels output_dir w) as H.
  rewrite Hmk, Hzip in H. cbn [fmap list_fmap parse_all] in H.
  rewrite Hw1 in H. cbn zeta in H.
  assert (writable (time_path output_dir)
            (<[steps_path output_dir :=
                 ImageFile (steps_image [] [])]> (fs w1)) = true) as Hw2'.
  { unfold writable in *. rewrite lookup_insert_ne; [done|].
    apply image_paths_differ. }
  rewrite Hw2' in H. apply os_makedirs_any in Hmk as [<- _]. exact H.
Qed.

Lemma create_plots_nothing_to_pair_witness :
  ((["missing.txt"] = [] \/ @nil string = []) /\
   os_makedirs (default "plots" None) true sample_world
     = (Ok tt, sample_world_dirs) /\
   writable (steps_path None) (fs sample_world_dirs) = true /\
   writable (time_path None) (fs sample_world_dirs) = true) /\
  create_plots 4300 ["missing.txt"] [] None sample_world =
    (Ok tt,
     World
       (<[time_path None :=
            ImageFile (Image (Figure (Some (8, 6)) time_decoration) 300 "tight")]>
          (<[steps_path None :=
               ImageFile
                 (Image (Figure (Some (8, 6)) steps_decoration) 300 "tight")]>
             (fs sample_world_dirs)))
       (figures sample_world)).
Proof.
  split; [split; [by right|repeat split; vm_compute; reflexivity]|].
  apply (create_plots_nothing_to_pair 4300 ["missing.txt"] [] None
           sample_world sample_world_dirs);
    [by right|vm_compute; reflexivity..].
Defined.

(** ** The entry point *)


